(** * Leitner five-box vocabulary trainer: the scheduler of [backend/server.py]

    A shallow embedding of the request handlers of [backend/server.py] and
    the properties of the box scheduler: which words are offered today, in
    which order, how an answer is judged and how the box moves.

    Modelling conventions.
    - A Python [str] is a [string], each character read as a code point
      below 256; [str.strip], [str.lower] and [str.split] follow Python on
      that range.
    - A [datetime] is a record of its seven fields, read as a UTC instant;
      the store orders instants by the lexicographic order of the fields.
      A Python datetime object is such a record together with the fact of
      carrying a tzinfo (aware) or none (naive): [datetime.now(timezone.utc)]
      is aware, a date read back from the store is naive, the client being
      created without [tz_aware], and Python refuses to order an aware
      against a naive one with a [TypeError].
    - An exception that no handler catches ends the request, which the
      framework answers with status 500; what the request wrote to the
      store before stays written.
    - A MongoDB collection is the list of its documents in insertion order:
      [find_one] returns the first match, [insert_one] appends,
      [update_one] rewrites the first match.
    - [datetime.now] and [uuid.uuid4] are oracles indexed by the number of
      calls made so far; the counters are part of the world. *)

From Stdlib Require Import ZArith List String Ascii Bool Lia.
From Stdlib Require Import Sorted Permutation.
Import ListNotations.
Open Scope string_scope.
Open Scope list_scope.
Open Scope Z_scope.

(** ** Python strings *)

Module PyStr.

(** Code points below 256 for which [str.isspace] holds. *)
Definition isspace (c : ascii) : bool :=
  let n := N_of_ascii c in
  ((9 <=? n) && (n <=? 13) || (28 <=? n) && (n <=? 32)
   || (n =? 133) || (n =? 160))%N.

(** [str.lower] on one code point below 256: A-Z and the Latin-1 capitals
    (all of U+00C0..U+00DE but the multiplication sign) move up by 32. *)
Definition lower_char (c : ascii) : ascii :=
  let n := N_of_ascii c in
  if ((65 <=? n) && (n <=? 90)
      || (192 <=? n) && (n <=? 222) && negb (n =? 215))%N
  then ascii_of_N (n + 32) else c.

Fixpoint lower (s : string) : string :=
  match s with
  | EmptyString => EmptyString
  | String c r => String (lower_char c) (lower r)
  end.

Fixpoint lstrip (s : string) : string :=
  match s with
  | EmptyString => EmptyString
  | String c r => if isspace c then lstrip r else s
  end.

Fixpoint rstrip (s : string) : string :=
  match s with
  | EmptyString => EmptyString
  | String c r =>
      match rstrip r with
      | EmptyString => if isspace c then EmptyString else String c EmptyString
      | r' => String c r'
      end
  end.

(** [s.strip()] *)
Definition strip (s : string) : string := rstrip (lstrip s).

(** [s.split(sep)] for a one-character separator: never the empty list. *)
Fixpoint split (sep : ascii) (s : string) : list string :=
  match s with
  | EmptyString => [EmptyString]
  | String c r =>
      if Ascii.eqb c sep then EmptyString :: split sep r
      else match split sep r with
           | h :: t => String c h :: t
           | [] => [String c EmptyString]
           end
  end.

(** [s.endswith(suffix)] *)
Definition endswith (s suffix : string) : bool :=
  let n := String.length s in
  let m := String.length suffix in
  (m <=? n)%nat && String.eqb (substring (n - m) m s) suffix.

End PyStr.

(** ** Timestamps *)

Record datetime : Type := mkDatetime {
  year : Z; month : Z; day : Z;
  hour : Z; minute : Z; second : Z; microsecond : Z
}.

(** [d.replace(hour=0, minute=0, second=0, microsecond=0)] *)
Definition replace_midnight (d : datetime) : datetime :=
  mkDatetime (year d) (month d) (day d) 0 0 0 0.

Fixpoint lex_compare (a b : list Z) : comparison :=
  match a, b with
  | x :: a', y :: b' =>
      match x ?= y with
      | Eq => lex_compare a' b'
      | c => c
      end
  | [], [] => Eq
  | [], _ :: _ => Lt
  | _ :: _, [] => Gt
  end.

Definition dt_fields (d : datetime) : list Z :=
  [year d; month d; day d; hour d; minute d; second d; microsecond d].

Definition dt_compare (a b : datetime) : comparison :=
  lex_compare (dt_fields a) (dt_fields b).

(** [a > b] and [a >= b] on timestamps *)
Definition dt_gt (a b : datetime) : bool :=
  match dt_compare a b with Gt => true | _ => false end.

Definition dt_ge (a b : datetime) : bool :=
  match dt_compare a b with Lt => false | _ => true end.

(** The calendar date of a timestamp and the order of calendar dates. *)
Definition date_of (d : datetime) : Z * Z * Z := (year d, month d, day d).

Definition date_lt (a b : Z * Z * Z) : Prop :=
  let '(ya, ma, da) := a in
  let '(yb, mb, db) := b in
  ya < yb \/ (ya = yb /\ (ma < mb \/ (ma = mb /\ da < db))).

(** ** Documents of the three collections *)

Record Student : Type := mkStudent {
  s_id : string;
  s_code : string;
  s_name : string;
  s_class_level : string;
  s_created_at : datetime
}.

Record Word : Type := mkWord {
  w_id : string;
  w_class_level : string;
  w_english : string;
  w_turkish_meanings : list string;
  w_created_at : datetime
}.

(** A progress document. The ones written by the upsert of [submit_answer]
    when no document matched carry neither [id] nor [created_at]. *)
Record Progress : Type := mkProgress {
  p_id : option string;
  p_student_code : string;
  p_word_id : string;
  p_box_number : Z;
  p_last_studied_date : option datetime;
  p_created_at : option datetime;
  p_updated_at : datetime
}.

Record StudySession : Type := mkStudySession {
  ss_student_code : string;
  ss_word_id : string;
  ss_answer : string;
  ss_is_correct : bool
}.

(** The three feedback templates of [submit_answer], with the number each
    one prints. *)
Inductive Message : Type :=
| MsgPromoted (new_box : Z)
| MsgStaysInLastBox
| MsgWrong (current_box : Z).

Record StudyResponse : Type := mkStudyResponse {
  sr_word_id : string;
  sr_english : string;
  sr_is_correct : bool;
  sr_correct_answers : list string;
  sr_new_box : Z;
  sr_message : Message
}.

Record StudentStats : Type := mkStudentStats {
  st_total_words : nat;
  st_box_distribution : list (Z * nat);
  st_words_studied_today : nat;
  st_next_study_words : nat
}.

(** An element of [words_to_study]. *)
Record StudyEntry : Type := mkStudyEntry {
  e_word : Word;
  e_box : Z;
  e_can_study : bool
}.

Inductive NextWord : Type :=
| Completed
| Next (word_id english : string) (current_box : Z) (remaining_words : nat).

Record StudentSummary : Type := mkStudentSummary {
  su_code : string;
  su_name : string;
  su_class_level : string
}.

Record WordStatus : Type := mkWordStatus {
  ws_id : string;
  ws_english : string;
  ws_turkish_meanings : list string;
  ws_box : Z;
  ws_last_studied : option datetime
}.

(** What a call hands back: a value, the [HTTPException] it raised, or the
    [TypeError] it raised, which nothing catches: the request ends with
    status 500. *)
Inductive Reply (A : Type) : Type :=
| Ok (a : A)
| HTTPException (status_code : Z) (detail : string)
| TypeError.
Arguments Ok {A} a.
Arguments HTTPException {A} status_code detail.
Arguments TypeError {A}.

Definition NotFound {A : Type} (r : Reply A) : Prop :=
  exists detail, r = HTTPException 404 detail.

(** ** Python datetime objects *)

(** The fields, and whether the object carries a tzinfo. *)
Inductive pydatetime : Type :=
| Aware (d : datetime)
| Naive (d : datetime).

(** [d.replace(hour=0, minute=0, second=0, microsecond=0)] keeps the
    tzinfo. *)
Definition py_replace_midnight (d : pydatetime) : pydatetime :=
  match d with
  | Aware x => Aware (replace_midnight x)
  | Naive x => Naive (replace_midnight x)
  end.

(** [a > b]: "can't compare offset-naive and offset-aware datetimes". *)
Definition py_gt (a b : pydatetime) : Reply bool :=
  match a, b with
  | Aware x, Aware y => Ok (dt_gt x y)
  | Naive x, Naive y => Ok (dt_gt x y)
  | Aware _, Naive _ => TypeError
  | Naive _, Aware _ => TypeError
  end.

(** ** The world: database, clock reads and identifiers drawn so far *)

Record World : Type := mkWorld {
  students : list Student;
  words : list Word;
  progress : list Progress;
  ticks : nat;
  draws : nat
}.

Definition M (A : Type) : Type := World -> A * World.

Definition ret {A : Type} (a : A) : M A := fun w => (a, w).

Definition bind {A B : Type} (m : M A) (k : A -> M B) : M B :=
  fun w => let (a, w') := m w in k a w'.

Declare Scope db_scope.
Delimit Scope db_scope with db.
Notation "x <- m ;; k" := (bind m (fun x => k))
  (at level 61, m at next level, right associativity) : db_scope.
Notation "m ;;; k" := (bind m (fun _ => k))
  (at level 61, right associativity) : db_scope.

(** [x = m] where [m] may raise: an exception of [m] ends the caller too,
    in the world [m] left. *)
Definition try_bind {A B : Type} (m : M (Reply A)) (k : A -> M (Reply B))
  : M (Reply B) :=
  fun w => let (r, w') := m w in
           match r with
           | Ok a => k a w'
           | HTTPException status_code detail =>
               (HTTPException status_code detail, w')
           | TypeError => (TypeError, w')
           end.

Notation "x <~ m ;; k" := (try_bind m (fun x => k))
  (at level 61, m at next level, right associativity) : db_scope.
Open Scope db_scope.

(** [for x in l: acc = body(x, acc)] *)
Fixpoint for_each {A B : Type} (l : list A) (body : A -> B -> M B) (acc : B)
  : M B :=
  match l with
  | [] => ret acc
  | x :: l' => acc' <- body x acc ;; for_each l' body acc'
  end.

(** The same loop with a body that may raise: the first exception ends
    the loop. *)
Fixpoint for_each_try {A B : Type} (l : list A) (body : A -> B -> M (Reply B))
    (acc : B) : M (Reply B) :=
  match l with
  | [] => ret (Ok acc)
  | x :: l' => acc' <~ body x acc ;; for_each_try l' body acc'
  end.

(** ** Collection operations *)

Definition match_progress (student_code word_id : string) (p : Progress)
  : bool :=
  String.eqb (p_student_code p) student_code
  && String.eqb (p_word_id p) word_id.

Definition students_find_one (code : string) : M (option Student) :=
  fun w => (find (fun s => String.eqb (s_code s) code) (students w), w).

Definition words_find_one_id (id : string) : M (option Word) :=
  fun w => (find (fun x => String.eqb (w_id x) id) (words w), w).

Definition words_find_one_class_english (class_level english : string)
  : M (option Word) :=
  fun w => (find (fun x => String.eqb (w_class_level x) class_level
                           && String.eqb (w_english x) english) (words w), w).

Definition words_find_class (class_level : string) : M (list Word) :=
  fun w => (filter (fun x => String.eqb (w_class_level x) class_level)
                   (words w), w).

Definition words_insert_one (x : Word) : M unit :=
  fun w => (tt, mkWorld (students w) (words w ++ [x]) (progress w)
                        (ticks w) (draws w)).

Definition progress_find_one (student_code word_id : string)
  : M (option Progress) :=
  fun w => (find (match_progress student_code word_id) (progress w), w).

Definition progress_insert_one (p : Progress) : M unit :=
  fun w => (tt, mkWorld (students w) (words w) (progress w ++ [p])
                        (ticks w) (draws w)).

(** The [$set] of [submit_answer] applied to the first document that
    matches; [None] when none does. *)
Fixpoint set_first (student_code word_id : string) (box : Z)
    (studied updated : datetime) (l : list Progress)
  : option (list Progress) :=
  match l with
  | [] => None
  | p :: l' =>
      if match_progress student_code word_id p
      then Some (mkProgress (p_id p) (p_student_code p) (p_word_id p) box
                            (Some studied) (p_created_at p) updated :: l')
      else option_map (cons p)
             (set_first student_code word_id box studied updated l')
  end.

(** [update_one(filter, {"$set": ...}, upsert=True)]: without a match, the
    inserted document is made of the filter's fields and the [$set] ones. *)
Definition upsert (student_code word_id : string) (box : Z)
    (studied updated : datetime) (l : list Progress) : list Progress :=
  match set_first student_code word_id box studied updated l with
  | Some l' => l'
  | None => l ++ [mkProgress None student_code word_id box (Some studied)
                             None updated]
  end.

Definition progress_update_one (student_code word_id : string) (box : Z)
    (studied updated : datetime) : M unit :=
  fun w => (tt, mkWorld (students w) (words w)
                  (upsert student_code word_id box studied updated
                          (progress w))
                  (ticks w) (draws w)).

Definition students_insert_one (s : Student) : M unit :=
  fun w => (tt, mkWorld (students w ++ [s]) (words w) (progress w)
                        (ticks w) (draws w)).

(** [update_one({"code": code}, {"$set": {"name": ..., "class_level": ...}})] *)
Fixpoint set_student (code name class_level : string) (l : list Student)
  : list Student :=
  match l with
  | [] => []
  | s :: l' =>
      if String.eqb (s_code s) code
      then mkStudent (s_id s) (s_code s) name class_level (s_created_at s)
           :: l'
      else s :: set_student code name class_level l'
  end.

Definition students_update_one (code name class_level : string) : M unit :=
  fun w => (tt, mkWorld (set_student code name class_level (students w))
                        (words w) (progress w) (ticks w) (draws w)).

(** [list.sort(key=key, reverse=reverse)]: a stable sort; elements of equal
    key keep their order, also when reversed. *)
Section PySort.
Context {A : Type} (key : A -> Z) (reverse : bool).

Definition goes_after (x y : A) : bool :=
  if reverse then key x <? key y else key y <? key x.

Fixpoint sort_insert (x : A) (l : list A) : list A :=
  match l with
  | [] => [x]
  | y :: l' => if goes_after x y then y :: sort_insert x l'
               else x :: l
  end.

Fixpoint list_sort (l : list A) : list A :=
  match l with
  | [] => []
  | x :: l' => sort_insert x (list_sort l')
  end.
End PySort.

(** ** The handlers *)

Section Handlers.
(** [datetime.now(timezone.utc)] at its n-th call, [str(uuid.uuid4())] at
    its n-th call. *)
Variable clock : nat -> datetime.
Variable uuid4 : nat -> string.

Definition now : M datetime :=
  fun w => (clock (ticks w),
            mkWorld (students w) (words w) (progress w)
                    (S (ticks w)) (draws w)).

Definition new_uuid : M string :=
  fun w => (uuid4 (draws w),
            mkWorld (students w) (words w) (progress w)
                    (ticks w) (S (draws w))).

(** [Progress(student_code=..., word_id=..., box_number=1,
    last_studied_date=None)]: the defaults draw an id and read the clock
    for [created_at] and [updated_at]. *)
Definition new_Progress (student_code word_id : string) : M Progress :=
  i <- new_uuid ;;
  c <- now ;;
  u <- now ;;
  ret (mkProgress (Some i) student_code word_id 1 None (Some c) u).

(** [Word(class_level=..., english=..., turkish_meanings=...)] *)
Definition new_Word (class_level english : string)
    (turkish_meanings : list string) : M Word :=
  i <- new_uuid ;;
  c <- now ;;
  ret (mkWord i class_level english turkish_meanings c).

Definition is_midnight_passed (last_date : option pydatetime)
  : M (Reply bool) :=
  match last_date with
  | None => ret (Ok true)
  | Some last =>
      n <- now ;;
      let today_midnight := py_replace_midnight (Aware n) in
      let last_midnight := py_replace_midnight last in
      ret (py_gt today_midnight last_midnight)
  end.

Definition is_none {A : Type} (o : option A) : bool :=
  match o with None => true | Some _ => false end.

(** [progress.get("last_studied_date")] on a document that [find_one]
    returned: the stored instant, decoded without tzinfo. *)
Definition get_last_studied_date (p : Progress) : option pydatetime :=
  option_map Naive (p_last_studied_date p).

(** The body of the loop over [class_words]. *)
Definition study_step (student_code : string) (word : Word)
    (words_to_study : list StudyEntry) : M (Reply (list StudyEntry)) :=
  pr <- progress_find_one student_code (w_id word) ;;
  match pr with
  | None =>
      new_progress <- new_Progress student_code (w_id word) ;;
      progress_insert_one new_progress ;;;
      ret (Ok (words_to_study ++ [mkStudyEntry word 1 true]))
  | Some p =>
      can_study_today <~ is_midnight_passed (get_last_studied_date p) ;;
      if p_box_number p =? 5 then
        if can_study_today && is_none (get_last_studied_date p)
        then ret (Ok (words_to_study
                      ++ [mkStudyEntry word (p_box_number p) true]))
        else ret (Ok words_to_study)
      else
        if can_study_today
        then ret (Ok (words_to_study
                      ++ [mkStudyEntry word (p_box_number p) true]))
        else ret (Ok words_to_study)
  end.

(** The two comprehensions, the sort and the concatenation that end
    [get_student_words_for_study]. *)
Definition arrange (words_to_study : list StudyEntry) : list StudyEntry :=
  let available_words :=
    filter (fun e => e_can_study e && (e_box e <? 5)) words_to_study in
  let box5_words :=
    filter (fun e => e_can_study e && (e_box e =? 5)) words_to_study in
  list_sort e_box true available_words ++ box5_words.

Definition get_student_words_for_study (student_code : string)
  : M (Reply (list StudyEntry)) :=
  student <- students_find_one student_code ;;
  match student with
  | None => ret (Ok [])
  | Some st =>
      class_words <- words_find_class (s_class_level st) ;;
      words_to_study <~
        for_each_try class_words (study_step student_code) [] ;;
      ret (Ok (arrange words_to_study))
  end.

Definition student_login (code : string) : M (Reply StudentSummary) :=
  student <- students_find_one code ;;
  match student with
  | None => ret (HTTPException 404 "Student not found")
  | Some st =>
      ret (Ok (mkStudentSummary (s_code st) (s_name st) (s_class_level st)))
  end.

Definition get_next_word (student_code : string) : M (Reply NextWord) :=
  words_to_study <~ get_student_words_for_study student_code ;;
  match words_to_study with
  | [] => ret (Ok Completed)
  | next_word :: _ =>
      ret (Ok (Next (w_id (e_word next_word)) (w_english (e_word next_word))
                    (e_box next_word) (List.length words_to_study)))
  end.

(** [any(meaning.strip().lower() == user_answer for meaning in ...)] with
    [user_answer = answer.strip().lower()] *)
Definition check_answer (turkish_meanings : list string) (answer : string)
  : bool :=
  let user_answer := PyStr.lower (PyStr.strip answer) in
  existsb (fun meaning =>
             String.eqb (PyStr.lower (PyStr.strip meaning)) user_answer)
          turkish_meanings.

(** The [if]/[elif]/[else] of [submit_answer] that moves the box. *)
Definition update_box (is_correct : bool) (current_box : Z) : Z * Message :=
  if is_correct && (current_box <? 5) then
    let new_box := current_box + 1 in (new_box, MsgPromoted new_box)
  else if is_correct && (current_box =? 5) then
    (5, MsgStaysInLastBox)
  else (current_box, MsgWrong current_box).

Definition current_box_of (pr : option Progress) : Z :=
  match pr with Some p => p_box_number p | None => 1 end.

Definition submit_answer (session : StudySession)
  : M (Reply StudyResponse) :=
  word <- words_find_one_id (ss_word_id session) ;;
  match word with
  | None => ret (HTTPException 404 "Word not found")
  | Some wd =>
      let turkish_meanings := w_turkish_meanings wd in
      let is_correct := check_answer turkish_meanings (ss_answer session) in
      pr <- progress_find_one (ss_student_code session)
                              (ss_word_id session) ;;
      let current_box := current_box_of pr in
      let '(new_box, message) := update_box is_correct current_box in
      studied <- now ;;
      updated <- now ;;
      progress_update_one (ss_student_code session) (ss_word_id session)
                          new_box studied updated ;;;
      ret (Ok (mkStudyResponse (ss_word_id session) (w_english wd)
                               is_correct turkish_meanings new_box message))
  end.

(** The [$match]/[$group]/[$sort] pipeline of [get_student_stats]: one
    pair (box number, count) per box number met, by increasing box. *)
Fixpoint count_into (k : Z) (l : list (Z * nat)) : list (Z * nat) :=
  match l with
  | [] => [(k, 1%nat)]
  | (k', n) :: l' =>
      if k <? k' then (k, 1%nat) :: l
      else if k =? k' then (k', S n) :: l'
      else (k', n) :: count_into k l'
  end.

Definition progress_aggregate (student_code : string)
  : M (list (Z * nat)) :=
  fun w =>
    (fold_left (fun acc p => count_into (p_box_number p) acc)
       (filter (fun p => String.eqb (p_student_code p) student_code)
               (progress w)) [], w).

(** [box_distribution[f"box_{k}"] = v] on a dict keyed by box number. *)
Fixpoint dict_set (k : Z) (v : nat) (d : list (Z * nat)) : list (Z * nat) :=
  match d with
  | [] => [(k, v)]
  | (k', v') :: d' =>
      if k =? k' then (k, v) :: d' else (k', v') :: dict_set k v d'
  end.

(** [count_documents] with [last_studied_date >= today_start]: a null date
    matches no [$gte]. *)
Definition progress_count_since (student_code : string)
    (today_start : datetime) : M nat :=
  fun w =>
    (List.length
       (filter (fun p =>
                  String.eqb (p_student_code p) student_code
                  && match p_last_studied_date p with
                     | Some d => dt_ge d today_start
                     | None => false
                     end) (progress w)), w).

Definition get_student_stats (student_code : string)
  : M (Reply StudentStats) :=
  student <- students_find_one student_code ;;
  match student with
  | None => ret (HTTPException 404 "Student not found")
  | Some st =>
      class_words <- words_find_class (s_class_level st) ;;
      let total_words := List.length class_words in
      box_stats <- progress_aggregate student_code ;;
      let box_distribution :=
        fold_left (fun d stat => dict_set (fst stat) (snd stat) d) box_stats
                  [(1, 0%nat); (2, 0%nat); (3, 0%nat); (4, 0%nat);
                   (5, 0%nat)] in
      n <- now ;;
      let today_start := replace_midnight n in
      words_studied_today <- progress_count_since student_code today_start ;;
      words_to_study <~ get_student_words_for_study student_code ;;
      let next_study_words := List.length words_to_study in
      ret (Ok (mkStudentStats total_words box_distribution
                              words_studied_today next_study_words))
  end.

Definition word_status (student_code : string) (word : Word)
    (result : list WordStatus) : M (list WordStatus) :=
  pr <- progress_find_one student_code (w_id word) ;;
  ret (result ++
       [mkWordStatus (w_id word) (w_english word) (w_turkish_meanings word)
          (current_box_of pr)
          (match pr with
           | Some p => p_last_studied_date p
           | None => None
           end)]).

Definition get_student_words (student_code : string)
  : M (Reply (list WordStatus)) :=
  student <- students_find_one student_code ;;
  match student with
  | None => ret (HTTPException 404 "Student not found")
  | Some st =>
      class_words <- words_find_class (s_class_level st) ;;
      result <- for_each class_words (word_status student_code) [] ;;
      ret (Ok (list_sort ws_box false result))
  end.

(** [[meaning.strip() for meaning in turkish.split(';')]] *)
Definition split_meanings (turkish : string) : list string :=
  map PyStr.strip (PyStr.split ";"%char turkish).

(** The body of the loop of [upload_words] over the rows of the file. *)
Definition upload_words_row (row : list string) (words_added : nat)
  : M nat :=
  match map PyStr.strip row with
  | [class_level; english; turkish] =>
      let turkish_meanings := split_meanings turkish in
      existing <- words_find_one_class_english class_level
                                               (PyStr.lower english) ;;
      match existing with
      | None =>
          word <- new_Word class_level english turkish_meanings ;;
          words_insert_one word ;;;
          ret (S words_added)
      | Some _ => ret words_added
      end
  | _ => ret words_added
  end.

(** [upload_words] on a file of the given name whose content the csv
    reader decodes to [rows]. *)
Definition upload_words (filename : string) (rows : list (list string))
  : M (Reply nat) :=
  if negb (PyStr.endswith filename ".csv")
  then ret (HTTPException 400 "File must be CSV format")
  else
    words_added <- for_each rows upload_words_row 0%nat ;;
    ret (Ok words_added).

(** [Student(code=..., name=..., class_level=...)] *)
Definition new_Student (code name class_level : string) : M Student :=
  i <- new_uuid ;;
  c <- now ;;
  ret (mkStudent i code name class_level c).

(** The body of the loop of [upload_students]; the accumulator is
    [(students_added, students_updated)]. *)
Definition upload_students_row (row : list string) (counts : nat * nat)
  : M (nat * nat) :=
  match map PyStr.strip row with
  | [code; name; class_level] =>
      existing <- students_find_one code ;;
      match existing with
      | Some _ =>
          students_update_one code name class_level ;;;
          ret (fst counts, S (snd counts))
      | None =>
          student <- new_Student code name class_level ;;
          students_insert_one student ;;;
          ret (S (fst counts), snd counts)
      end
  | _ => ret counts
  end.

Definition upload_students (filename : string) (rows : list (list string))
  : M (Reply (nat * nat)) :=
  if negb (PyStr.endswith filename ".csv")
  then ret (HTTPException 400 "File must be CSV format")
  else
    counts <- for_each rows upload_students_row (0%nat, 0%nat) ;;
    ret (Ok counts).

(** A request to one of the endpoints that reach the database, and the
    world it leaves behind. *)
Inductive Request : Type :=
| StudentLogin (code : string)
| GetNextWord (student_code : string)
| SubmitAnswer (session : StudySession)
| GetStudentStats (student_code : string)
| GetStudentWords (student_code : string)
| UploadStudents (filename : string) (rows : list (list string))
| UploadWords (filename : string) (rows : list (list string)).

Definition serve (r : Request) (w : World) : World :=
  match r with
  | StudentLogin code => snd (student_login code w)
  | GetNextWord student_code => snd (get_next_word student_code w)
  | SubmitAnswer session => snd (submit_answer session w)
  | GetStudentStats student_code => snd (get_student_stats student_code w)
  | GetStudentWords student_code => snd (get_student_words student_code w)
  | UploadStudents filename rows => snd (upload_students filename rows w)
  | UploadWords filename rows => snd (upload_words filename rows w)
  end.

Definition serve_all (rs : list Request) (w : World) : World :=
  fold_left (fun w r => serve r w) rs w.
End Handlers.

(** [word] is one of the words of the study list [l]. *)
Definition offered (word : Word) (l : list StudyEntry) : Prop :=
  exists e, In e l /\ e_word e = word.

(** The words of [student_code]'s class, in catalog order; none for an
    unknown student. *)
Definition class_words_of (student_code : string) (w : World) : list Word :=
  match find (fun s => String.eqb (s_code s) student_code) (students w) with
  | Some st =>
      filter (fun x => String.eqb (w_class_level x) (s_class_level st))
             (words w)
  | None => []
  end.

(** The progress document [find_one] returns for the pair. *)
Definition progress_of (student_code word_id : string) (w : World)
  : option Progress :=
  find (match_progress student_code word_id) (progress w).

(** ** Vocabulary of the study-list properties *)

(** A progress document as the study list creates it: box 1, never studied. *)
Definition fresh (p : Progress) : Prop :=
  p_box_number p = 1 /\ p_last_studied_date p = None.

(** The midnight rule: the calendar day of [now] is after that of [last].
    It is what [is_midnight_passed] computes on an aware date. *)
Definition day_changed (last now : datetime) : bool :=
  dt_gt (replace_midnight now) (replace_midnight last).

(** The order [list.sort(key=key, reverse=reverse)] establishes. *)
Definition in_order {A : Type} (key : A -> Z) (reverse : bool) (x y : A)
  : Prop :=
  if reverse then key y <= key x else key x <= key y.

(** The word has a progress document of the student that carries a last
    study date. *)
Definition has_date (student_code : string) (w : World) (word : Word)
  : bool :=
  match progress_of student_code (w_id word) w with
  | Some p =>
      match p_last_studied_date p with Some _ => true | None => false end
  | None => false
  end.

(** The box a word of the class is studied from in world [w]: that of its
    progress document, box 1 without one. *)
Definition box_in (student_code : string) (w : World) (word : Word) : Z :=
  match progress_of student_code (w_id word) w with
  | Some p => p_box_number p
  | None => 1
  end.

(** The entries of the words of the class, in catalog order, each in the
    box it is studied from. *)
Definition entries_of (student_code : string) (w : World)
  : list StudyEntry :=
  map (fun x => mkStudyEntry x (box_in student_code w x) true)
      (class_words_of student_code w).

(** The loop of [get_student_words_for_study] on the words of the student's
    class: [words_to_study] before it is arranged, or the exception, and the
    world then. *)
Definition study_loop (clock : nat -> datetime) (uuid4 : nat -> string)
    (student_code : string) (w : World) : Reply (list StudyEntry) * World :=
  for_each_try (class_words_of student_code w)
               (study_step clock uuid4 student_code) [] w.

(** ** Sample data: the scenario of the specification *)

Definition noon (y m d : Z) : datetime := mkDatetime y m d 12 0 0 0.

(** A clock stopped at noon of 2 January 2024, and identifiers w0, w1, ...,
    w9 and on through the characters that follow the digits. *)
Definition sample_clock : nat -> datetime := fun _ => noon 2024 1 2.

Definition sample_uuid4 (n : nat) : string :=
  String "w" (String (ascii_of_nat (48 + n)) EmptyString).

Definition ali : Student :=
  mkStudent "s0" "9011" "Ali ARIKAN" "5A" (noon 2024 1 1).

Definition hello : Word :=
  mkWord "w0" "5A" "hello" ["merhaba"] (noon 2024 1 1).

Definition sample_world : World := mkWorld [ali] [hello] [] 0 1.

Definition answer_to (word : Word) (answer : string) : StudySession :=
  mkStudySession "9011" (w_id word) answer false.

(** The catalog after importing the row [5A,hello,merhaba;] into a database
    that holds the student only. *)
Definition trailing_world : World :=
  snd (upload_words sample_clock sample_uuid4 "words.csv"
         [["5A"; "hello"; "merhaba;"]] (mkWorld [ali] [] [] 0 0)).

Definition hello_trailing : Word :=
  mkWord "w0" "5A" "hello" ["merhaba"; ""] (noon 2024 1 2).

(** A database that holds the student and no word yet, and a word row whose
    english is capitalised. *)
Definition empty_catalog : World := mkWorld [ali] [] [] 0 0.

Definition capital_row : list string := ["5A"; "Hello"; "merhaba"].

Definition import_words (rows : list (list string)) (w : World)
  : Reply nat * World :=
  upload_words sample_clock sample_uuid4 "words.csv" rows w.

(** A catalog of seven words of class 5A: six with progress documents in
    boxes 1, 3, 2, 4, 5, 3, none of them studied yet, and one without. *)
Definition catalog_word (id : string) : Word :=
  mkWord id "5A" id ["x"] (noon 2024 1 1).

Definition unstudied (id : string) (box : Z) : Progress :=
  mkProgress None "9011" id box None None (noon 2024 1 1).

Definition mixed_world : World :=
  mkWorld [ali]
    (map catalog_word ["a"; "b"; "c"; "d"; "e"; "f"; "g"])
    [unstudied "a" 1; unstudied "b" 3; unstudied "c" 2; unstudied "d" 4;
     unstudied "e" 5; unstudied "f" 3]
    0 0.

(** A timestamp of January 2024. *)
Definition jan (d h m : Z) : datetime := mkDatetime 2024 1 d h m 0 0.

(** The student studied [hello] on 1 January at 23:59 and left it in the
    given box. *)
Definition studied (box : Z) : Progress :=
  mkProgress None "9011" "w0" box (Some (jan 1 23 59)) None (jan 1 23 59).

Definition studied_world (box : Z) : World :=
  mkWorld [ali] [hello] [studied box] 0 1.

(** A second word of class 5A, and the catalog of both words with [hello]
    studied on 1 January and [book] not met yet. *)
Definition book : Word :=
  mkWord "w9" "5A" "book" ["kitap"] (noon 2024 1 1).

Definition two_words : World :=
  mkWorld [ali] [hello; book] [studied 2] 0 1.

(** The same catalog in the other order. *)
Definition two_words_reversed : World :=
  mkWorld [ali] [book; hello] [studied 2] 0 1.


(** The student studied, today at noon, a word of another class. *)
Definition pen : Word :=
  mkWord "w7" "6A" "pen" ["kalem"] (noon 2024 1 1).

Definition other_class_world : World :=
  mkWorld [ali] [hello; pen]
    [mkProgress None "9011" "w7" 2 (Some (noon 2024 1 2)) None
       (noon 2024 1 2)] 0 1.

(** A clock stopped at 00:00 of 2 January 2024. *)
Definition midnight_clock : nat -> datetime := fun _ => jan 2 0 0.

(** The imported word [hello_trailing] with a progress document in box 3. *)
Definition trailing_box3_world : World :=
  mkWorld [ali] [hello_trailing]
    [mkProgress None "9011" "w0" 3 None None (noon 2024 1 1)] 0 1.

(** ** Vocabulary of the invariants *)

(** The pair a progress document belongs to. *)
Definition key_of (p : Progress) : string * string :=
  (p_student_code p, p_word_id p).

(** Every progress document is in one of the five boxes. *)
Definition boxes_in_range (l : list Progress) : Prop :=
  Forall (fun p => 1 <= p_box_number p <= 5) l.

(** No two progress documents belong to the same pair. *)
Definition unique_pairs (l : list Progress) : Prop :=
  NoDup (map key_of l).

(** From [l0] to [l] no document was lost, moved to a lower box or lost its
    last study date. *)
Definition never_regressed (l0 l : list Progress) : Prop :=
  forall code id p,
    find (match_progress code id) l0 = Some p ->
    exists p', find (match_progress code id) l = Some p'
               /\ p_box_number p <= p_box_number p'
               /\ (p_last_studied_date p <> None ->
                   p_last_studied_date p' <> None).

(** ** Vocabulary of the statistics *)

(** [d[f"box_{k}"]] on a dict keyed by box number. *)
Definition dict_get (k : Z) (d : list (Z * nat)) : option nat :=
  option_map snd (find (fun kv => fst kv =? k) d).

(** How many progress documents of the student are in box [k]. *)
Definition count_box (student_code : string) (k : Z) (l : list Progress)
  : nat :=
  List.length
    (filter (fun p => String.eqb (p_student_code p) student_code
                      && (p_box_number p =? k)) l).

(** The keys of an aggregation result increase strictly. *)
Definition keys_increase (d : list (Z * nat)) : Prop :=
  StronglySorted (fun a b => fst a < fst b) d.

(** The count a dict holds for box [k], 0 without the key. *)
Definition dict_val (k : Z) (d : list (Z * nat)) : nat :=
  match dict_get k d with Some n => n | None => 0%nat end.

(** The time of day of a [datetime] object is never negative. *)
Definition time_of_day (d : datetime) : Prop :=
  0 <= hour d /\ 0 <= minute d /\ 0 <= second d /\ 0 <= microsecond d.

(** The order of calendar dates, decided. *)
Definition date_ltb (a b : Z * Z * Z) : bool :=
  let '(ya, ma, da) := a in
  let '(yb, mb, db) := b in
  (ya <? yb) || (ya =? yb) && ((ma <? mb) || (ma =? mb) && (da <? db)).

(** How many progress documents of the student carry a last study date
    that is not before the calendar date [today]. *)
Definition count_studied_from (student_code : string) (today : Z * Z * Z)
    (l : list Progress) : nat :=
  List.length
    (filter (fun p => String.eqb (p_student_code p) student_code
                      && match p_last_studied_date p with
                         | Some d => negb (date_ltb (date_of d) today)
                         | None => false
                         end) l).

(** The world once the clock has been read one more time. *)
Definition after_reading (w : World) : World :=
  mkWorld (students w) (words w) (progress w) (S (ticks w)) (draws w).

(** Every progress document of the student was never studied and lies in
    a box up to 5. *)
Definition never_studied (student_code : string) (l : list Progress) : Prop :=
  forall p, In p l -> p_student_code p = student_code ->
            p_last_studied_date p = None /\ p_box_number p <= 5.

(** ** Vocabulary of the word report and of the imports *)

(** The line of [get_student_words] for one word, read in world [w]. *)
Definition status_of (student_code : string) (w : World) (word : Word)
  : WordStatus :=
  mkWordStatus (w_id word) (w_english word) (w_turkish_meanings word)
    (current_box_of (progress_of student_code (w_id word) w))
    (match progress_of student_code (w_id word) w with
     | Some p => p_last_studied_date p
     | None => None
     end).

(** The rows of a file that the imports read: those of three columns. *)
Definition three_columns (row : list string) : bool :=
  (List.length row =? 3)%nat.

(** No two students share a code. *)
Definition unique_codes (l : list Student) : Prop :=
  NoDup (map s_code l).

(** The words whose english is written in lower case, as pairs of class
    level and english. *)
Definition lower_case_entries (l : list Word) : list (string * string) :=
  map (fun x => (w_class_level x, w_english x))
      (filter (fun x => String.eqb (PyStr.lower (w_english x)) (w_english x))
              l).

(** A string of whitespace only. *)
Fixpoint blank (s : string) : bool :=
  match s with
  | EmptyString => true
  | String c r => PyStr.isspace c && blank r
  end.

(** The string holds the character. *)
Fixpoint has_char (c : ascii) (s : string) : bool :=
  match s with
  | EmptyString => false
  | String c' r => Ascii.eqb c' c || has_char c r
  end.

(** The import of students, the one request that can move a student to
    another class. *)
Definition is_student_import (r : Request) : bool :=
  match r with
  | UploadStudents _ _ => true
  | _ => false
  end.

(** The two imports, as opposed to the requests of the study side. *)
Definition is_upload (r : Request) : bool :=
  match r with
  | UploadStudents _ _ | UploadWords _ _ => true
  | _ => false
  end.

(** * Properties *)

(** ** Timestamps and strings *)

Lemma dt_gt_midnight (a b : datetime) :
  dt_gt (replace_midnight a) (replace_midnight b) = true
  <-> date_lt (date_of b) (date_of a).
Proof.
  unfold dt_gt, dt_compare, replace_midnight, dt_fields, date_of, date_lt.
  cbn [lex_compare year month day hour minute second microsecond].
  destruct (Z.compare_spec (year a) (year b));
    destruct (Z.compare_spec (month a) (month b));
    destruct (Z.compare_spec (day a) (day b));
    cbn; split; intros; try discriminate; try reflexivity; lia.
Qed.

Lemma lower_empty : PyStr.lower "" = "".
Proof. reflexivity. Qed.

Lemma check_answer_spec (meanings : list string) (answer : string) :
  check_answer meanings answer = true
  <-> exists m, In m meanings
        /\ PyStr.lower (PyStr.strip m) = PyStr.lower (PyStr.strip answer).
Proof.
  unfold check_answer. rewrite existsb_exists.
  split; intros [m [Hin Hm]]; exists m; split; trivial.
  - now apply String.eqb_eq.
  - now apply String.eqb_eq.
Qed.

(** ** The box transition *)

Lemma update_box_correct_below (b : Z) :
  b < 5 -> update_box true b = (b + 1, MsgPromoted (b + 1)).
Proof.
  intros H. unfold update_box. cbn.
  destruct (Z.ltb_spec b 5); [reflexivity | lia].
Qed.

Lemma update_box_correct_top : update_box true 5 = (5, MsgStaysInLastBox).
Proof. reflexivity. Qed.

Lemma update_box_incorrect (b : Z) : update_box false b = (b, MsgWrong b).
Proof. reflexivity. Qed.

Lemma update_box_correct_any (b : Z) :
  fst (update_box true b) = if b <? 5 then b + 1 else b.
Proof.
  unfold update_box. cbn.
  destruct (Z.ltb_spec b 5); [reflexivity |].
  destruct (Z.eqb_spec b 5); cbn; congruence.
Qed.

(** ** [submit_answer], unfolded *)

Section SubmitAnswer.
Variable clock : nat -> datetime.
Variable uuid4 : nat -> string.

Lemma submit_answer_unknown (session : StudySession) (w : World) :
  find (fun x => String.eqb (w_id x) (ss_word_id session)) (words w) = None ->
  submit_answer clock session w
  = (HTTPException 404 "Word not found", w).
Proof.
  intros H. unfold submit_answer, bind, words_find_one_id, ret.
  now rewrite H.
Qed.

Lemma submit_answer_known (session : StudySession) (w : World) (wd : Word) :
  find (fun x => String.eqb (w_id x) (ss_word_id session)) (words w)
  = Some wd ->
  let is_correct :=
    check_answer (w_turkish_meanings wd) (ss_answer session) in
  let current_box :=
    current_box_of
      (progress_of (ss_student_code session) (ss_word_id session) w) in
  submit_answer clock session w
  = (Ok (mkStudyResponse (ss_word_id session) (w_english wd) is_correct
           (w_turkish_meanings wd) (fst (update_box is_correct current_box))
           (snd (update_box is_correct current_box))),
     mkWorld (students w) (words w)
       (upsert (ss_student_code session) (ss_word_id session)
          (fst (update_box is_correct current_box))
          (clock (ticks w)) (clock (S (ticks w))) (progress w))
       (S (S (ticks w))) (draws w)).
Proof.
  intros H is_correct current_box.
  unfold submit_answer, bind, words_find_one_id, progress_find_one, ret.
  rewrite H. fold is_correct. unfold progress_of in current_box.
  fold current_box.
  destruct (update_box is_correct current_box) as [new_box message].
  reflexivity.
Qed.
End SubmitAnswer.

(** ** The progress collection under [find_one] and the upsert *)

Lemma find_app_some {A : Type} (f : A -> bool) (l l' : list A) (a : A) :
  find f l = Some a -> find f (l ++ l') = Some a.
Proof.
  induction l as [| x l IH]; cbn; [discriminate |].
  destruct (f x); auto.
Qed.

Lemma find_app_none {A : Type} (f : A -> bool) (l l' : list A) :
  find f l = None -> find f (l ++ l') = find f l'.
Proof.
  induction l as [| x l IH]; cbn; [reflexivity |].
  destruct (f x); [discriminate | auto].
Qed.

Lemma match_progress_key (c i c' i' : string) (p : Progress) :
  match_progress c i p = true -> match_progress c' i' p = true ->
  c = c' /\ i = i'.
Proof.
  unfold match_progress. intros H H'.
  apply andb_true_iff in H as [H1 H2]. apply andb_true_iff in H' as [H1' H2'].
  apply String.eqb_eq in H1, H2, H1', H2'. split; congruence.
Qed.

Lemma set_first_none (c i : string) (b : Z) (s u : datetime)
    (l : list Progress) :
  find (match_progress c i) l = None <-> set_first c i b s u l = None.
Proof.
  induction l as [| p l IH]; cbn; [tauto |].
  destruct (match_progress c i p); [split; discriminate |].
  rewrite IH. destruct (set_first c i b s u l); cbn; split; intros H;
    try discriminate; reflexivity.
Qed.

Lemma upsert_absent (c i : string) (b : Z) (s u : datetime)
    (l : list Progress) :
  find (match_progress c i) l = None ->
  upsert c i b s u l = l ++ [mkProgress None c i b (Some s) None u].
Proof.
  intros H. unfold upsert.
  apply (set_first_none c i b s u) in H. now rewrite H.
Qed.

Lemma upsert_present (c i : string) (b : Z) (s u : datetime)
    (l : list Progress) (p : Progress) :
  find (match_progress c i) l = Some p ->
  exists l1 l2,
    l = l1 ++ p :: l2
    /\ find (match_progress c i) l1 = None
    /\ upsert c i b s u l
       = l1 ++ mkProgress (p_id p) (p_student_code p) (p_word_id p) b
                 (Some s) (p_created_at p) u :: l2.
Proof.
  unfold upsert. induction l as [| q l IH]; cbn; [discriminate |].
  destruct (match_progress c i q) eqn:Hq.
  - intros [= ->]. exists [], l. auto.
  - intros H. destruct (IH H) as (l1 & l2 & -> & Hn & Hu).
    exists (q :: l1), l2. cbn. rewrite Hq. repeat split; trivial.
    destruct (set_first c i b s u (l1 ++ p :: l2)); cbn in *; congruence.
Qed.

Lemma find_upsert_same (c i : string) (b : Z) (s u : datetime)
    (l : list Progress) :
  exists p', find (match_progress c i) (upsert c i b s u l) = Some p'
    /\ p_box_number p' = b /\ p_last_studied_date p' = Some s
    /\ p_student_code p' = c /\ p_word_id p' = i.
Proof.
  destruct (find (match_progress c i) l) as [p |] eqn:H.
  - destruct (upsert_present c i b s u l p H) as (l1 & l2 & _ & Hn & ->).
    apply find_some in H as [_ Hp].
    eexists. rewrite (find_app_none _ _ _ Hn). cbn.
    unfold match_progress in *. cbn. rewrite Hp.
    apply andb_true_iff in Hp as [H1 H2]. apply String.eqb_eq in H1, H2.
    repeat split; trivial.
  - rewrite (upsert_absent c i b s u l H).
    eexists. rewrite (find_app_none _ _ _ H). cbn.
    unfold match_progress. cbn. rewrite !String.eqb_refl. cbn.
    repeat split.
Qed.

Lemma find_upsert_other (c i c' i' : string) (b : Z) (s u : datetime)
    (l : list Progress) :
  (c, i) <> (c', i') ->
  find (match_progress c' i') (upsert c i b s u l)
  = find (match_progress c' i') l.
Proof.
  intros Hne.
  assert (Hno : forall p, match_progress c i p = true ->
                          match_progress c' i' p = false).
  { intros p Hp. destruct (match_progress c' i' p) eqn:Hp'; trivial.
    destruct (match_progress_key _ _ _ _ _ Hp Hp'). congruence. }
  destruct (find (match_progress c i) l) as [p |] eqn:H.
  - destruct (upsert_present c i b s u l p H) as (l1 & l2 & -> & Hn & ->).
    apply find_some in H as [_ Hp].
    assert (Hp' := Hno _ Hp).
    destruct (find (match_progress c' i') l1) as [q |] eqn:Hq.
    + now rewrite !(find_app_some _ _ _ _ Hq).
    + rewrite !(find_app_none _ _ _ Hq). cbn. rewrite Hp'.
      unfold match_progress in *. cbn. now rewrite Hp'.
  - rewrite (upsert_absent c i b s u l H).
    destruct (find (match_progress c' i') l) as [q |] eqn:Hq.
    + now rewrite (find_app_some _ _ _ _ Hq).
    + rewrite (find_app_none _ _ _ Hq). cbn.
      rewrite Hno; [reflexivity |].
      unfold match_progress. cbn. now rewrite !String.eqb_refl.
Qed.

(** ** C1: the box transition of [submit_answer] *)

(** C1. For a known word, [submit_answer] answers with the box computed from
    the current box (the stored [box_number], or 1 without a progress
    document): a correct answer in boxes 1..4 moves the word one box up, a
    correct answer in box 5 leaves it in box 5, and an incorrect answer in
    boxes 1..5 leaves the box as it is. *)
Theorem submit_answer_box_transition :
  forall (clock : nat -> datetime) (session : StudySession) (w : World)
         (wd : Word),
    find (fun x => String.eqb (w_id x) (ss_word_id session)) (words w)
    = Some wd ->
    let current_box :=
      match progress_of (ss_student_code session) (ss_word_id session) w with
      | Some p => p_box_number p
      | None => 1
      end in
    exists resp,
      fst (submit_answer clock session w) = Ok resp
      /\ sr_is_correct resp
         = check_answer (w_turkish_meanings wd) (ss_answer session)
      /\ (sr_is_correct resp = true -> 1 <= current_box <= 4 ->
          sr_new_box resp = current_box + 1)
      /\ (sr_is_correct resp = true -> current_box = 5 ->
          sr_new_box resp = 5)
      /\ (sr_is_correct resp = false -> 1 <= current_box <= 5 ->
          sr_new_box resp = current_box).
Proof.
  intros clock session w wd Hw current_box.
  rewrite (submit_answer_known clock session w wd Hw).
  eexists. split; [reflexivity |]. cbn [fst sr_is_correct sr_new_box].
  change (current_box_of
            (progress_of (ss_student_code session) (ss_word_id session) w))
    with current_box.
  split; [reflexivity |].
  repeat split; intros Hc Hb; rewrite Hc.
  - rewrite update_box_correct_below by lia. reflexivity.
  - subst current_box. rewrite Hb. reflexivity.
  - reflexivity.
Qed.

Lemma submit_answer_box_transition_witness :
  exists resp,
    fst (submit_answer sample_clock (answer_to hello "merhaba") sample_world)
    = Ok resp
    /\ sr_is_correct resp = true
    /\ (sr_is_correct resp = true -> 1 <= 1 <= 4 -> sr_new_box resp = 2).
Proof.
  destruct (submit_answer_box_transition sample_clock
              (answer_to hello "merhaba") sample_world hello eq_refl)
    as (resp & H1 & H2 & H3 & _).
  exists resp. repeat split; trivial.
Defined.

(** The scenario of the specification: the first word offered to student
    9011 is [hello] in box 1; the answer ["merhaba"] is correct and moves it
    to box 2; the answer ["wrong"] after that is incorrect and leaves it in
    box 2. Asking for the next word once an answer is recorded raises
    [TypeError]. *)
Example study_scenario :
  let w1 := snd (get_next_word sample_clock sample_uuid4 "9011"
                   sample_world) in
  let w2 := snd (submit_answer sample_clock (answer_to hello "merhaba") w1) in
  fst (get_next_word sample_clock sample_uuid4 "9011" sample_world)
  = Ok (Next "w0" "hello" 1 1)
  /\ option_map (fun r => (sr_is_correct r, sr_new_box r))
       (match fst (submit_answer sample_clock (answer_to hello "merhaba") w1)
        with Ok r => Some r | _ => None end)
     = Some (true, 2)
  /\ option_map (fun r => (sr_is_correct r, sr_new_box r))
       (match fst (submit_answer sample_clock (answer_to hello "wrong") w2)
        with Ok r => Some r | _ => None end)
     = Some (false, 2)
  /\ fst (get_next_word sample_clock sample_uuid4 "9011" w2) = TypeError.
Proof. repeat split; reflexivity. Qed.

(** ** C5: answer matching *)

(** C5. For a known word, [submit_answer] marks the answer correct exactly
    when the answer, stripped and lowercased, equals one of the word's
    meanings stripped and lowercased. ["Merhaba "], ["merhaba"] and
    [" MERHABA"] match the meaning ["merhaba"]; a prefix, a one-letter
    change or a missing accent do not. *)
Theorem submit_answer_matching :
  forall (clock : nat -> datetime) (session : StudySession) (w : World)
         (wd : Word),
    find (fun x => String.eqb (w_id x) (ss_word_id session)) (words w)
    = Some wd ->
    (exists resp,
       fst (submit_answer clock session w) = Ok resp
       /\ (sr_is_correct resp = true
           <-> exists m,
                 In m (w_turkish_meanings wd)
                 /\ PyStr.lower (PyStr.strip m)
                    = PyStr.lower (PyStr.strip (ss_answer session))))
    /\ check_answer ["merhaba"] "Merhaba " = true
    /\ check_answer ["merhaba"] "merhaba" = true
    /\ check_answer ["merhaba"] " MERHABA" = true
    /\ check_answer ["merhaba"] "merhab" = false
    /\ check_answer ["merhaba"] "merhabe" = false
    /\ check_answer [String.append "caf" (String (ascii_of_nat 233) "")] "cafe"
       = false.
Proof.
  intros clock session w wd Hw.
  split; [| repeat split; reflexivity].
  rewrite (submit_answer_known clock session w wd Hw).
  eexists. split; [reflexivity |]. cbn [sr_is_correct].
  apply check_answer_spec.
Qed.

Lemma submit_answer_matching_witness :
  exists resp,
    fst (submit_answer sample_clock (answer_to hello " MERHABA") sample_world)
    = Ok resp
    /\ sr_is_correct resp = true.
Proof.
  destruct (submit_answer_matching sample_clock (answer_to hello " MERHABA")
              sample_world hello eq_refl) as [(resp & H1 & H2) _].
  exists resp. split; [exact H1 |].
  apply H2. exists "merhaba". split; [now left | reflexivity].
Defined.

(** ** C7: what [submit_answer] writes, and when it fails *)

(** C7. [submit_answer] raises the 404 exactly when no word has the
    submitted id, and then leaves the world as it was. For a known word it
    succeeds, whatever the answer; afterwards the progress document of the
    pair holds the new box and, as last study date, the clock read by the
    request; the document is appended when the pair had none and rewritten
    in place otherwise; the documents of the other pairs are untouched. *)
Theorem submit_answer_contract :
  forall (clock : nat -> datetime) (session : StudySession) (w : World),
    let code := ss_student_code session in
    let id := ss_word_id session in
    let known := find (fun x => String.eqb (w_id x) id) (words w) in
    let r := submit_answer clock session w in
    (NotFound (fst r) <-> known = None)
    /\ (known = None -> snd r = w)
    /\ (forall wd, known = Some wd ->
        exists resp p',
          fst r = Ok resp
          /\ sr_new_box resp
             = fst (update_box
                      (check_answer (w_turkish_meanings wd)
                                    (ss_answer session))
                      (current_box_of (progress_of code id w)))
          /\ progress_of code id (snd r) = Some p'
          /\ p_student_code p' = code /\ p_word_id p' = id
          /\ p_box_number p' = sr_new_box resp
          /\ p_last_studied_date p' = Some (clock (ticks w))
          /\ (progress_of code id w = None ->
              progress (snd r) = progress w ++ [p'])
          /\ (forall p, progress_of code id w = Some p ->
              exists l1 l2,
                progress w = l1 ++ p :: l2
                /\ progress (snd r) = l1 ++ p' :: l2)
          /\ (forall code' id', (code, id) <> (code', id') ->
              progress_of code' id' (snd r) = progress_of code' id' w)
          /\ students (snd r) = students w /\ words (snd r) = words w).
Proof.
  intros clock session w code id known r.
  destruct known as [wd |] eqn:Hk; subst known r.
  - rewrite (submit_answer_known clock session w wd Hk). cbn [fst snd].
    split; [| split; [discriminate |]].
    { split; [intros [d Hd]; discriminate | discriminate]. }
    intros wd' [= <-]. fold code id.
    set (b := fst (update_box _ _)).
    destruct (find_upsert_same code id b (clock (ticks w))
                (clock (S (ticks w))) (progress w))
      as (p' & Hf & Hb & Hl & Hc & Hi).
    eexists. exists p'. split; [reflexivity |]. cbn [sr_new_box].
    unfold progress_of at 2 5. cbn [progress students words].
    repeat split; trivial.
    + intros Hn. rewrite (upsert_absent _ _ _ _ _ _ Hn) in Hf |- *.
      rewrite (find_app_none _ _ _ Hn) in Hf. cbn in Hf.
      unfold match_progress in Hf. cbn in Hf.
      rewrite !String.eqb_refl in Hf. cbn in Hf. congruence.
    + intros p Hp.
      destruct (upsert_present code id b (clock (ticks w))
                  (clock (S (ticks w))) (progress w) p Hp)
        as (l1 & l2 & Hl12 & Hn & Hu).
      exists l1, l2. split; [exact Hl12 |]. rewrite Hu in Hf |- *.
      rewrite (find_app_none _ _ _ Hn) in Hf. cbn in Hf.
      apply find_some in Hp as [_ Hm].
      unfold match_progress in Hf, Hm. cbn in Hf. rewrite Hm in Hf.
      congruence.
    + intros code' id' Hne. now apply find_upsert_other.
  - rewrite (submit_answer_unknown clock session w Hk). cbn [fst snd].
    split; [| split; [reflexivity | discriminate]].
    split; [reflexivity | intros _; now eexists].
Qed.

Lemma submit_answer_contract_witness :
  exists resp p',
    fst (submit_answer sample_clock (answer_to hello "wrong") sample_world)
    = Ok resp
    /\ progress (snd (submit_answer sample_clock (answer_to hello "wrong")
                        sample_world)) = [p']
    /\ p_box_number p' = 1
    /\ p_last_studied_date p' = Some (noon 2024 1 2).
Proof.
  destruct (submit_answer_contract sample_clock (answer_to hello "wrong")
              sample_world) as (_ & _ & H).
  destruct (H hello eq_refl)
    as (resp & p' & H1 & H2 & _ & _ & _ & H3 & H4 & H5 & _).
  exists resp, p'. repeat split; trivial.
  - exact (H5 eq_refl).
  - rewrite H3, H2. reflexivity.
Defined.

(** ** C10: an empty meaning accepts every blank answer *)

Lemma rstrip_nonspace (c : ascii) (y : string) :
  PyStr.isspace c = false ->
  PyStr.rstrip (String c y) = String c (PyStr.rstrip y).
Proof.
  intros Hc. cbn. destruct (PyStr.rstrip y); [now rewrite Hc | reflexivity].
Qed.

Lemma rstrip_app_nonspace (x y : string) (c : ascii) :
  PyStr.isspace c = false ->
  PyStr.rstrip (x ++ String c y) = (x ++ String c (PyStr.rstrip y))%string.
Proof.
  intros Hc. induction x as [| a x IH].
  - now apply rstrip_nonspace.
  - change (PyStr.rstrip (String a (x ++ String c y))
            = String a (x ++ String c (PyStr.rstrip y)))%string.
    cbn [PyStr.rstrip]. rewrite IH.
    destruct x; reflexivity.
Qed.

Lemma lstrip_app_nonspace (x y : string) (c : ascii) :
  PyStr.isspace c = false ->
  exists x', PyStr.lstrip (x ++ String c y) = (x' ++ String c y)%string.
Proof.
  intros Hc. induction x as [| a x IH].
  - exists EmptyString. cbn. now rewrite Hc.
  - cbn. destruct (PyStr.isspace a).
    + exact IH.
    + now exists (String a x).
Qed.

Lemma strip_app_nonspace (x y : string) (c : ascii) :
  PyStr.isspace c = false ->
  exists x',
    PyStr.strip (x ++ String c y) = (x' ++ String c (PyStr.rstrip y))%string.
Proof.
  intros Hc. unfold PyStr.strip.
  destruct (lstrip_app_nonspace x y c Hc) as [x' ->].
  exists x'. now apply rstrip_app_nonspace.
Qed.

Lemma split_after_separator (sep : ascii) (x y : string) :
  incl (PyStr.split sep y) (tl (PyStr.split sep (x ++ String sep y))).
Proof.
  induction x as [| a x IH]; cbn.
  - rewrite Ascii.eqb_refl. cbn. apply incl_refl.
  - destruct (Ascii.eqb a sep).
    + cbn. intros s Hs. apply IH in Hs.
      destruct (PyStr.split sep (x ++ String sep y)); [easy | now right].
    + destruct (PyStr.split sep (x ++ String sep y)); cbn in *; exact IH.
Qed.

Lemma split_trailing_separator (sep : ascii) (x : string) :
  In EmptyString (PyStr.split sep (x ++ String sep EmptyString)).
Proof.
  assert (H := split_after_separator sep x EmptyString EmptyString).
  cbn in H. specialize (H (or_introl eq_refl)).
  destruct (PyStr.split sep (x ++ String sep "")); [easy | now right].
Qed.

Lemma split_doubled_separator (sep : ascii) (x y : string) :
  In EmptyString (PyStr.split sep (x ++ String sep (String sep y))).
Proof.
  assert (H := split_after_separator sep x (String sep y) EmptyString).
  cbn in H. rewrite Ascii.eqb_refl in H. specialize (H (or_introl eq_refl)).
  destruct (PyStr.split sep (x ++ String sep (String sep y)));
    [easy | now right].
Qed.

Lemma split_meanings_trailing (field : string) :
  In EmptyString (split_meanings (PyStr.strip (field ++ ";"))).
Proof.
  destruct (strip_app_nonspace field EmptyString ";"%char eq_refl) as [x' H].
  unfold split_meanings. change (field ++ ";")%string
    with (field ++ String ";" EmptyString)%string.
  rewrite H. cbn [PyStr.rstrip].
  change EmptyString with (PyStr.strip EmptyString) at 1.
  apply in_map, split_trailing_separator.
Qed.

Lemma split_meanings_doubled (a b : string) :
  In EmptyString (split_meanings (PyStr.strip (a ++ ";;" ++ b))).
Proof.
  destruct (strip_app_nonspace a (String ";" b) ";"%char eq_refl) as [x' H].
  unfold split_meanings.
  change (a ++ ";;" ++ b)%string with (a ++ String ";" (String ";" b))%string.
  rewrite H, rstrip_nonspace by reflexivity.
  change EmptyString with (PyStr.strip EmptyString) at 1.
  apply in_map, split_doubled_separator.
Qed.

Section UploadWords.
Variable clock : nat -> datetime.
Variable uuid4 : nat -> string.

Lemma upload_words_row_new (row : list string) (n : nat) (w : World)
    (class_level english turkish : string) :
  map PyStr.strip row = [class_level; english; turkish] ->
  find (fun x => String.eqb (w_class_level x) class_level
                 && String.eqb (w_english x) (PyStr.lower english))
       (words w) = None ->
  upload_words_row clock uuid4 row n w
  = (S n,
     mkWorld (students w)
       (words w ++ [mkWord (uuid4 (draws w)) class_level english
                      (split_meanings turkish) (clock (ticks w))])
       (progress w) (S (ticks w)) (S (draws w))).
Proof.
  intros Hrow Hnone. unfold upload_words_row. rewrite Hrow.
  unfold bind, words_find_one_class_english. rewrite Hnone. reflexivity.
Qed.

Lemma upload_words_row_existing (row : list string) (n : nat) (w : World)
    (class_level english turkish : string) (x : Word) :
  map PyStr.strip row = [class_level; english; turkish] ->
  find (fun x => String.eqb (w_class_level x) class_level
                 && String.eqb (w_english x) (PyStr.lower english))
       (words w) = Some x ->
  upload_words_row clock uuid4 row n w = (n, w).
Proof.
  intros Hrow Hsome. unfold upload_words_row. rewrite Hrow.
  unfold bind, words_find_one_class_english. rewrite Hsome. reflexivity.
Qed.
End UploadWords.

(** C10. A turkish field that ends with a semicolon or holds two in a row is
    imported with an empty meaning (["merhaba;"] gives ["merhaba"; ""]); and
    for a word with a meaning that is empty once stripped, [submit_answer]
    marks every answer that is empty once stripped as correct and moves the
    box as for any correct answer: from the stored box, or from box 1
    without a progress document, one up below box 5, unchanged from 5. *)
Theorem empty_meaning_accepts_blank_answer :
  (split_meanings "merhaba;" = ["merhaba"; ""]
   /\ forall (clock : nat -> datetime) (uuid4 : nat -> string)
             (class_level english field : string) (n : nat) (w : World),
        ((exists a, field = a ++ ";") \/ (exists a b, field = a ++ ";;" ++ b))
        %string ->
        find (fun x =>
                String.eqb (w_class_level x) (PyStr.strip class_level)
                && String.eqb (w_english x)
                              (PyStr.lower (PyStr.strip english)))
             (words w) = None ->
        exists wd,
          words (snd (upload_words_row clock uuid4
                        [class_level; english; field] n w))
          = words w ++ [wd]
          /\ In "" (w_turkish_meanings wd))
  /\ forall (clock : nat -> datetime) (session : StudySession) (w : World)
            (wd : Word),
       find (fun x => String.eqb (w_id x) (ss_word_id session)) (words w)
       = Some wd ->
       (exists m, In m (w_turkish_meanings wd) /\ PyStr.strip m = "") ->
       PyStr.strip (ss_answer session) = "" ->
       let code := ss_student_code session in
       let id := ss_word_id session in
       let current_box :=
         match progress_of code id w with
         | Some p => p_box_number p
         | None => 1
         end in
       exists resp p',
         fst (submit_answer clock session w) = Ok resp
         /\ sr_is_correct resp = true
         /\ sr_new_box resp
            = (if current_box <? 5 then current_box + 1 else current_box)
         /\ progress_of code id (snd (submit_answer clock session w))
            = Some p'
         /\ p_box_number p' = sr_new_box resp.
Proof.
  split; [split; [reflexivity |] |].
  - intros clock uuid4 class_level english field n w Hfield Hnone.
    rewrite (upload_words_row_new clock uuid4 [class_level; english; field]
               n w _ _ _ eq_refl Hnone).
    eexists. split; [reflexivity |]. cbn [w_turkish_meanings].
    destruct Hfield as [[a ->] | (a & b & ->)].
    + apply split_meanings_trailing.
    + apply split_meanings_doubled.
  - intros clock session w wd Hw (m & Hin & Hm) Ha code id current_box.
    assert (Hc : check_answer (w_turkish_meanings wd) (ss_answer session)
                 = true).
    { apply check_answer_spec. exists m. split; [exact Hin |].
      now rewrite Hm, Ha. }
    rewrite (submit_answer_known clock session w wd Hw). cbn [fst snd].
    fold code id.
    change (current_box_of (progress_of code id w)) with current_box.
    rewrite Hc, update_box_correct_any.
    set (b := if current_box <? 5 then current_box + 1 else current_box).
    destruct (find_upsert_same code id b (clock (ticks w))
                (clock (S (ticks w))) (progress w)) as (p' & Hf & Hb & _).
    eexists. exists p'. repeat split; trivial.
Qed.

Lemma empty_meaning_accepts_blank_answer_witness :
  words trailing_world = [hello_trailing]
  /\ (exists resp,
        fst (submit_answer sample_clock (answer_to hello_trailing "   ")
               trailing_world) = Ok resp
        /\ sr_is_correct resp = true /\ sr_new_box resp = 2)
  /\ (exists resp,
        fst (submit_answer sample_clock (answer_to hello_trailing "")
               trailing_box3_world) = Ok resp
        /\ sr_is_correct resp = true /\ sr_new_box resp = 4).
Proof.
  split; [reflexivity |]. split.
  - destruct (proj2 empty_meaning_accepts_blank_answer sample_clock
                (answer_to hello_trailing "   ") trailing_world hello_trailing
                eq_refl (ex_intro _ "" (conj (or_intror (or_introl eq_refl))
                                             eq_refl)) eq_refl)
      as (resp & p' & H1 & H2 & H3 & _).
    exists resp. repeat split; trivial.
  - destruct (proj2 empty_meaning_accepts_blank_answer sample_clock
                (answer_to hello_trailing "") trailing_box3_world
                hello_trailing
                eq_refl (ex_intro _ "" (conj (or_intror (or_introl eq_refl))
                                             eq_refl)) eq_refl)
      as (resp & p' & H1 & H2 & H3 & _).
    exists resp. repeat split; trivial.
Defined.

(** ** C8: importing the same word row twice *)

(** C8. Importing the row [5A,Hello,merhaba] into an empty catalog adds one
    word; importing the same row again adds a second word with the same
    class and english: the lookup asks for the lowercased english
    ["hello"], the catalog holds ["Hello"]. A row whose english is already
    in lower case is skipped the second time. *)
Theorem reimport_capitalised_row_adds_again :
  let w1 := snd (import_words [capital_row] empty_catalog) in
  let w2 := snd (import_words [capital_row] w1) in
  fst (import_words [capital_row] empty_catalog) = Ok 1%nat
  /\ fst (import_words [capital_row] w1) = Ok 1%nat
  /\ map (fun x => (w_class_level x, w_english x)) (words w2)
     = [("5A", "Hello"); ("5A", "Hello")]
  /\ fst (import_words [capital_row; capital_row] empty_catalog) = Ok 2%nat
  /\ fst (import_words [["5A"; "hello"; "merhaba"]]
            (snd (import_words [["5A"; "hello"; "merhaba"]] empty_catalog)))
     = Ok 0%nat.
Proof. repeat split; reflexivity. Qed.

(** ** C9: requests for an unknown student *)

Section UnknownStudent.
Variable clock : nat -> datetime.
Variable uuid4 : nat -> string.

Lemma study_list_unknown_student (code : string) (w : World) :
  find (fun s => String.eqb (s_code s) code) (students w) = None ->
  get_student_words_for_study clock uuid4 code w = (Ok [], w).
Proof.
  intros H. unfold get_student_words_for_study, bind, students_find_one.
  now rewrite H.
Qed.
End UnknownStudent.

(** C9, as the code has it. With a student code that matches no student,
    [student_login], [get_student_stats] and [get_student_words] raise the
    404 and change nothing; [get_next_word] succeeds with [Completed] and
    changes nothing; [submit_answer] never looks the student up: it raises
    the 404 only for an unknown word id, and for a known word it succeeds
    and leaves a progress document for that code. *)
Theorem unknown_student_outcomes :
  forall (clock : nat -> datetime) (uuid4 : nat -> string) (code : string)
         (w : World),
    find (fun s => String.eqb (s_code s) code) (students w) = None ->
    (NotFound (fst (student_login code w)) /\ snd (student_login code w) = w)
    /\ (NotFound (fst (get_student_stats clock uuid4 code w))
        /\ snd (get_student_stats clock uuid4 code w) = w)
    /\ (NotFound (fst (get_student_words code w))
        /\ snd (get_student_words code w) = w)
    /\ get_next_word clock uuid4 code w = (Ok Completed, w)
    /\ forall session,
         ss_student_code session = code ->
         let known :=
           find (fun x => String.eqb (w_id x) (ss_word_id session))
                (words w) in
         (NotFound (fst (submit_answer clock session w)) <-> known = None)
         /\ (forall wd, known = Some wd ->
             exists resp,
               fst (submit_answer clock session w) = Ok resp
               /\ progress_of code (ss_word_id session)
                    (snd (submit_answer clock session w)) <> None).
Proof.
  intros clock uuid4 code w H.
  split; [| split; [| split; [| split]]].
  - unfold student_login, bind, students_find_one. rewrite H.
    split; [now eexists | reflexivity].
  - unfold get_student_stats, bind, students_find_one. rewrite H.
    split; [now eexists | reflexivity].
  - unfold get_student_words, bind, students_find_one. rewrite H.
    split; [now eexists | reflexivity].
  - unfold get_next_word, try_bind.
    now rewrite (study_list_unknown_student clock uuid4 code w H).
  - intros session Hcode known.
    destruct known as [wd |] eqn:Hk; subst known.
    + rewrite (submit_answer_known clock session w wd Hk). cbn [fst snd].
      split.
      * split; [intros [d Hd]; discriminate | discriminate].
      * intros wd' _. eexists. split; [reflexivity |].
        unfold progress_of at 1. cbn [progress]. rewrite Hcode.
        match goal with
        | |- find _ (upsert ?c ?i ?b ?s ?u ?l) <> None =>
            destruct (find_upsert_same c i b s u l) as (p' & Hf & _)
        end.
        rewrite Hf. discriminate.
    + rewrite (submit_answer_unknown clock session w Hk). cbn [fst].
      split; [| discriminate].
      split; [reflexivity | intros _; now eexists].
Qed.

Lemma unknown_student_outcomes_witness :
  get_next_word sample_clock sample_uuid4 "9999" sample_world
  = (Ok Completed, sample_world)
  /\ NotFound (fst (student_login "9999" sample_world)).
Proof.
  destruct (unknown_student_outcomes sample_clock sample_uuid4 "9999"
              sample_world eq_refl) as ((H1 & _) & _ & _ & H2 & _).
  split; [exact H2 | exact H1].
Defined.

(** C9, as stated, fails: for the unknown code 9999, [get_next_word] and
    [submit_answer] succeed. *)
Lemma unknown_student_not_always_404 :
  find (fun s => String.eqb (s_code s) "9999") (students sample_world) = None
  /\ fst (get_next_word sample_clock sample_uuid4 "9999" sample_world)
     = Ok Completed
  /\ ~ NotFound (fst (get_next_word sample_clock sample_uuid4 "9999"
                        sample_world))
  /\ ~ NotFound (fst (submit_answer sample_clock
                        (mkStudySession "9999" "w0" "merhaba" false)
                        sample_world)).
Proof.
  repeat split; try reflexivity; intros [d Hd]; discriminate.
Qed.

(** ** The loop of [get_student_words_for_study] *)

Lemma for_each_cons {A B : Type} (x : A) (l : list A) (body : A -> B -> M B)
    (acc : B) (w : World) :
  for_each (x :: l) body acc w
  = for_each l body (fst (body x acc w)) (snd (body x acc w)).
Proof. cbn. unfold bind. now destruct (body x acc w). Qed.

Lemma for_each_try_cons {A B : Type} (x : A) (l : list A)
    (body : A -> B -> M (Reply B)) (acc : B) (w : World) :
  for_each_try (x :: l) body acc w
  = match fst (body x acc w) with
    | Ok acc' => for_each_try l body acc' (snd (body x acc w))
    | HTTPException status_code detail =>
        (HTTPException status_code detail, snd (body x acc w))
    | TypeError => (TypeError, snd (body x acc w))
    end.
Proof.
  cbn. unfold try_bind. now destruct (body x acc w) as [[a | c d |] w'].
Qed.

(** A date read back from the store never passes the test: the comparison
    with the aware midnight of today raises, after one clock reading. *)
Lemma is_midnight_passed_stored (clock : nat -> datetime) (last : datetime)
    (w : World) :
  is_midnight_passed clock (Some (Naive last)) w
  = (TypeError, after_reading w).
Proof. reflexivity. Qed.

Section StudyLoop.
Variable clock : nat -> datetime.
Variable uuid4 : nat -> string.
Variable code : string.

Local Abbreviation step := (study_step clock uuid4 code).

Lemma study_step_new (word : Word) (acc : list StudyEntry) (w : World) :
  progress_of code (w_id word) w = None ->
  step word acc w
  = (Ok (acc ++ [mkStudyEntry word 1 true]),
     mkWorld (students w) (words w)
       (progress w
        ++ [mkProgress (Some (uuid4 (draws w))) code (w_id word) 1 None
              (Some (clock (ticks w))) (clock (S (ticks w)))])
       (S (S (ticks w))) (S (draws w))).
Proof.
  intros H. unfold study_step, bind, progress_find_one.
  unfold progress_of in H. rewrite H. reflexivity.
Qed.

Lemma study_step_unstudied (word : Word) (acc : list StudyEntry) (w : World)
    (p : Progress) :
  progress_of code (w_id word) w = Some p ->
  p_last_studied_date p = None ->
  step word acc w
  = (Ok (acc ++ [mkStudyEntry word (p_box_number p) true]), w).
Proof.
  intros H Hl. unfold study_step, bind, try_bind, progress_find_one,
    get_last_studied_date.
  unfold progress_of in H. rewrite H, Hl. cbn.
  destruct (p_box_number p =? 5); reflexivity.
Qed.

Lemma study_step_studied (word : Word) (acc : list StudyEntry) (w : World)
    (p : Progress) (d : datetime) :
  progress_of code (w_id word) w = Some p ->
  p_last_studied_date p = Some d ->
  step word acc w = (TypeError, after_reading w).
Proof.
  intros H Hl. unfold study_step, bind, try_bind, progress_find_one,
    get_last_studied_date.
  unfold progress_of in H. rewrite H, Hl. reflexivity.
Qed.

(** What one pass of the loop does to the world, finished or not: the
    catalogs stay, the clock only advances, and the progress collection
    only grows, by fresh documents of this student. *)
Lemma study_loop_frame (l : list Word) :
  forall acc w,
    let r := for_each_try l step acc w in
    students (snd r) = students w /\ words (snd r) = words w
    /\ (ticks w <= ticks (snd r))%nat
    /\ exists extra,
         progress (snd r) = progress w ++ extra
         /\ Forall (fun p => fresh p /\ p_student_code p = code) extra.
Proof.
  induction l as [| word l IH]; intros acc w; cbn zeta.
  - cbn. repeat split; trivial. exists []. now rewrite app_nil_r.
  - rewrite for_each_try_cons.
    destruct (progress_of code (w_id word) w) as [p |] eqn:Hp.
    + destruct (p_last_studied_date p) as [d |] eqn:Hd.
      * rewrite (study_step_studied word acc w p d Hp Hd). cbn.
        repeat split; trivial; [lia |]. exists []. now rewrite app_nil_r.
      * rewrite (study_step_unstudied word acc w p Hp Hd). cbn [fst snd].
        apply IH.
    + rewrite (study_step_new word acc w Hp). cbn [fst snd].
      match goal with |- context [for_each_try l _ ?a ?v] =>
        destruct (IH a v) as (H1 & H2 & H3 & extra & H4 & H5) end.
      cbn in H1, H2, H3, H4. repeat split; trivial; [lia |].
      eexists. rewrite H4, <- app_assoc. split; [reflexivity |].
      constructor; [| exact H5]. cbn. repeat split.
Qed.

Lemma progress_of_grown (w w1 : World) (extra : list Progress) (id : string) :
  progress w1 = progress w ++ extra ->
  Forall (fun p => fresh p /\ p_student_code p = code) extra ->
  match progress_of code id w with
  | Some p => progress_of code id w1 = Some p
  | None => progress_of code id w1 = None
            \/ exists p1, progress_of code id w1 = Some p1 /\ fresh p1
  end.
Proof.
  intros Hg Hf. unfold progress_of. rewrite Hg.
  destruct (find (match_progress code id) (progress w)) as [p |] eqn:Hp.
  - now apply find_app_some.
  - rewrite (find_app_none _ _ _ Hp).
    destruct (find (match_progress code id) extra) as [p1 |] eqn:H1;
      [right | now left].
    exists p1. split; [reflexivity |].
    apply find_some in H1 as [Hin _].
    rewrite Forall_forall in Hf. now apply Hf.
Qed.

Lemma has_date_grown (w w1 : World) (extra : list Progress) (x : Word) :
  progress w1 = progress w ++ extra ->
  Forall (fun p => fresh p /\ p_student_code p = code) extra ->
  has_date code w1 x = has_date code w x
  /\ box_in code w1 x = box_in code w x.
Proof.
  intros Hg Hf. pose proof (progress_of_grown w w1 extra (w_id x) Hg Hf) as H.
  unfold has_date, box_in.
  destruct (progress_of code (w_id x) w) as [p |].
  - now rewrite H.
  - destruct H as [-> | (p1 & -> & Hb & Hd)]; [now split |].
    rewrite Hd, Hb. now split.
Qed.

(** The loop raises as soon as it meets a word with a dated document. *)
Lemma study_loop_raises (l : list Word) :
  forall acc w,
    (exists x, In x l /\ has_date code w x = true) ->
    fst (for_each_try l step acc w) = TypeError.
Proof.
  induction l as [| word l IH]; intros acc w (x & Hin & Hx);
    [destruct Hin |].
  rewrite for_each_try_cons.
  destruct (progress_of code (w_id word) w) as [p |] eqn:Hp.
  - destruct (p_last_studied_date p) as [d |] eqn:Hd.
    + now rewrite (study_step_studied word acc w p d Hp Hd).
    + rewrite (study_step_unstudied word acc w p Hp Hd). cbn [fst snd].
      apply IH. exists x. split; [| exact Hx].
      destruct Hin as [<- | Hin]; [| exact Hin].
      unfold has_date in Hx. rewrite Hp, Hd in Hx. discriminate.
  - rewrite (study_step_new word acc w Hp). cbn [fst snd].
    apply IH. exists x. split.
    + destruct Hin as [<- | Hin]; [| exact Hin].
      unfold has_date in Hx. rewrite Hp in Hx. discriminate.
    + rewrite <- Hx.
      apply (has_date_grown w _
               [mkProgress (Some (uuid4 (draws w))) code (w_id word) 1 None
                  (Some (clock (ticks w))) (clock (S (ticks w)))]);
        [reflexivity |].
      repeat constructor.
Qed.

(** Without a dated document the loop lists every word, in catalog order,
    in the box it is studied from. *)
Lemma study_loop_returns (l : list Word) :
  forall acc w,
    (forall x, In x l -> has_date code w x = false) ->
    fst (for_each_try l step acc w)
    = Ok (acc ++ map (fun x => mkStudyEntry x (box_in code w x) true) l).
Proof.
  induction l as [| word l IH]; intros acc w H.
  - cbn. now rewrite app_nil_r.
  - rewrite for_each_try_cons. cbn [map].
    assert (Hw := H word (or_introl eq_refl)).
    unfold has_date in Hw. unfold box_in at 1.
    destruct (progress_of code (w_id word) w) as [p |] eqn:Hp.
    + destruct (p_last_studied_date p) as [d |] eqn:Hd; [discriminate |].
      rewrite (study_step_unstudied word acc w p Hp Hd). cbn [fst snd].
      rewrite IH by (intros x Hx; apply H; now right).
      now rewrite <- app_assoc.
    + rewrite (study_step_new word acc w Hp). cbn [fst snd].
      set (w' := mkWorld _ _ _ _ _).
      assert (Hg : forall x, has_date code w' x = has_date code w x
                             /\ box_in code w' x = box_in code w x).
      { intros x.
        apply (has_date_grown w w'
                 [mkProgress (Some (uuid4 (draws w))) code (w_id word) 1 None
                    (Some (clock (ticks w))) (clock (S (ticks w)))]);
          [reflexivity |].
        repeat constructor. }
      rewrite IH.
      * rewrite <- app_assoc. cbn [app]. do 3 f_equal.
        apply map_ext. intros x. now rewrite (proj2 (Hg x)).
      * intros x Hx. rewrite (proj1 (Hg x)). apply H. now right.
Qed.

(** A second pass over the same words, from a world with the progress
    collection the first pass left, inserts nothing. *)
Lemma study_loop_again (l : list Word) :
  forall acc w acc' v,
    progress v = progress (snd (for_each_try l step acc w)) ->
    progress (snd (for_each_try l step acc' v)) = progress v.
Proof.
  induction l as [| word l IH]; intros acc w acc' v Hv; [reflexivity |].
  rewrite for_each_try_cons in Hv. rewrite for_each_try_cons.
  destruct (progress_of code (w_id word) w) as [p |] eqn:Hp.
  - destruct (p_last_studied_date p) as [d |] eqn:Hd.
    + rewrite (study_step_studied word acc w p d Hp Hd) in Hv.
      cbn in Hv.
      assert (Hp' : progress_of code (w_id word) v = Some p)
        by (unfold progress_of in *; now rewrite Hv).
      now rewrite (study_step_studied word acc' v p d Hp' Hd).
    + rewrite (study_step_unstudied word acc w p Hp Hd) in Hv.
      cbn [fst snd] in Hv.
      destruct (study_loop_frame l (acc ++ [mkStudyEntry word (p_box_number p)
                                              true]) w)
        as (_ & _ & _ & extra & Hg & _).
      cbn zeta in Hg.
      assert (Hp' : progress_of code (w_id word) v = Some p).
      { unfold progress_of in *. rewrite Hv, Hg. now apply find_app_some. }
      rewrite (study_step_unstudied word acc' v p Hp' Hd). cbn [fst snd].
      exact (IH _ w _ v Hv).
  - rewrite (study_step_new word acc w Hp) in Hv. cbn [fst snd] in Hv.
    set (w' := mkWorld _ _ _ _ _) in Hv.
    destruct (study_loop_frame l (acc ++ [mkStudyEntry word 1 true]) w')
      as (_ & _ & _ & extra & Hg & _).
    cbn zeta in Hg.
    assert (Hp' : progress_of code (w_id word) v
                  = Some (mkProgress (Some (uuid4 (draws w))) code (w_id word)
                            1 None (Some (clock (ticks w)))
                            (clock (S (ticks w))))).
    { unfold progress_of in *. rewrite Hv, Hg. subst w'. cbn [progress].
      apply find_app_some. rewrite (find_app_none _ _ _ Hp). cbn.
      unfold match_progress. cbn. now rewrite !String.eqb_refl. }
    rewrite (study_step_unstudied word acc' v _ Hp' eq_refl). cbn [fst snd].
    exact (IH _ w' _ v Hv).
Qed.
End StudyLoop.

(** ** The stable sort *)

Section PySortFacts.
Context {A : Type} (key : A -> Z) (reverse : bool).

Lemma sort_insert_perm (x : A) (l : list A) :
  Permutation (sort_insert key reverse x l) (x :: l).
Proof.
  induction l as [| y l IH]; cbn; [reflexivity |].
  destruct (goes_after key reverse x y); [| reflexivity].
  rewrite IH. apply perm_swap.
Qed.

Lemma list_sort_perm (l : list A) : Permutation (list_sort key reverse l) l.
Proof.
  induction l as [| x l IH]; cbn; [reflexivity |].
  rewrite sort_insert_perm. now constructor.
Qed.

Lemma in_order_trans (x y z : A) :
  in_order key reverse x y -> in_order key reverse y z ->
  in_order key reverse x z.
Proof. unfold in_order. destruct reverse; lia. Qed.

Lemma goes_after_order (x y : A) :
  goes_after key reverse x y = true -> in_order key reverse y x.
Proof.
  unfold goes_after, in_order. destruct reverse; intros H;
    apply Z.ltb_lt in H; lia.
Qed.

Lemma not_goes_after_order (x y : A) :
  goes_after key reverse x y = false -> in_order key reverse x y.
Proof.
  unfold goes_after, in_order. destruct reverse; intros H;
    apply Z.ltb_ge in H; lia.
Qed.

Lemma sort_insert_sorted (x : A) (l : list A) :
  StronglySorted (in_order key reverse) l ->
  StronglySorted (in_order key reverse) (sort_insert key reverse x l).
Proof.
  induction 1 as [| y l Hs IH Hy]; cbn.
  - repeat constructor.
  - destruct (goes_after key reverse x y) eqn:Hxy.
    + constructor; [exact IH |].
      apply (Permutation_Forall (x := x :: l)).
      * symmetry. apply sort_insert_perm.
      * constructor; [now apply goes_after_order | exact Hy].
    + apply not_goes_after_order in Hxy.
      constructor; [now constructor |].
      constructor; [exact Hxy |].
      apply (Forall_impl _ (fun z Hz => in_order_trans x y z Hxy Hz) Hy).
Qed.

Lemma list_sort_sorted (l : list A) :
  StronglySorted (in_order key reverse) (list_sort key reverse l).
Proof.
  induction l as [| x l IH]; cbn; [constructor |].
  now apply sort_insert_sorted.
Qed.

Lemma sort_insert_stable (k : Z) (x : A) (l : list A) :
  filter (fun a => key a =? k) (sort_insert key reverse x l)
  = filter (fun a => key a =? k) (x :: l).
Proof.
  induction l as [| y l IH]; [reflexivity |].
  cbn [sort_insert]. destruct (goes_after key reverse x y) eqn:Hxy;
    [| reflexivity].
  cbn [filter] in *. rewrite IH.
  assert (Hne : key x <> key y).
  { unfold goes_after in Hxy. destruct reverse; apply Z.ltb_lt in Hxy; lia. }
  destruct (Z.eqb_spec (key x) k), (Z.eqb_spec (key y) k);
    try reflexivity; congruence.
Qed.

Lemma list_sort_stable (k : Z) (l : list A) :
  filter (fun a => key a =? k) (list_sort key reverse l)
  = filter (fun a => key a =? k) l.
Proof.
  induction l as [| x l IH]; [reflexivity |].
  cbn [list_sort]. rewrite sort_insert_stable. cbn. now rewrite IH.
Qed.

Lemma list_sort_in (a : A) (l : list A) :
  In a (list_sort key reverse l) <-> In a l.
Proof.
  split; apply Permutation_in;
    [apply list_sort_perm | symmetry; apply list_sort_perm].
Qed.
End PySortFacts.

(** ** The arrangement of the study list *)

Lemma in_arrange (e : StudyEntry) (l : list StudyEntry) :
  In e (arrange l) <-> In e l /\ e_can_study e = true /\ e_box e <= 5.
Proof.
  unfold arrange. rewrite in_app_iff, list_sort_in, !filter_In.
  rewrite !andb_true_iff, Z.ltb_lt, Z.eqb_eq.
  split; [intuition lia |]. intros (H1 & H2 & H3).
  destruct (Z.eq_dec (e_box e) 5); [right | left]; repeat split; trivial.
  lia.
Qed.

Lemma offered_arrange (word : Word) (l : list StudyEntry) :
  offered word (arrange l)
  <-> exists e, In e l /\ e_word e = word /\ e_can_study e = true
                /\ e_box e <= 5.
Proof.
  unfold offered. split; intros (e & H1 & H2); exists e.
  - apply in_arrange in H1. tauto.
  - rewrite in_arrange. tauto.
Qed.

(** ** [get_student_words_for_study] as loop and arrangement *)

Section StudyList.
Variable clock : nat -> datetime.
Variable uuid4 : nat -> string.

Lemma study_list_eq (code : string) (w : World) :
  get_student_words_for_study clock uuid4 code w
  = (match fst (study_loop clock uuid4 code w) with
     | Ok words_to_study => Ok (arrange words_to_study)
     | HTTPException status_code detail => HTTPException status_code detail
     | TypeError => TypeError
     end,
     snd (study_loop clock uuid4 code w)).
Proof.
  unfold get_student_words_for_study, study_loop, class_words_of, bind,
    try_bind, students_find_one, words_find_class.
  destruct (find _ (students w)) as [st |]; [| reflexivity].
  now destruct (for_each_try _ _ _ w) as [[l | c d |] w'].
Qed.

(** Either a word of the class has a dated document, or none has. *)
Lemma dated_or_not (code : string) (w : World) :
  (exists x, In x (class_words_of code w) /\ has_date code w x = true)
  \/ (forall x, In x (class_words_of code w) -> has_date code w x = false).
Proof.
  destruct (existsb (has_date code w) (class_words_of code w)) eqn:E.
  - left. now apply existsb_exists in E.
  - right. intros x Hx. destruct (has_date code w x) eqn:Hd; [| reflexivity].
    assert (H : existsb (has_date code w) (class_words_of code w) = true)
      by (apply existsb_exists; now exists x).
    congruence.
Qed.

Lemma study_list_raises (code : string) (w : World) :
  (exists x, In x (class_words_of code w) /\ has_date code w x = true) ->
  fst (get_student_words_for_study clock uuid4 code w) = TypeError.
Proof.
  intros H. rewrite study_list_eq. cbn [fst]. unfold study_loop.
  now rewrite (study_loop_raises clock uuid4 code _ [] w H).
Qed.

Lemma study_list_returns (code : string) (w : World) :
  (forall x, In x (class_words_of code w) -> has_date code w x = false) ->
  fst (get_student_words_for_study clock uuid4 code w)
  = Ok (arrange (entries_of code w)).
Proof.
  intros H. rewrite study_list_eq. cbn [fst]. unfold study_loop.
  now rewrite (study_loop_returns clock uuid4 code _ [] w H).
Qed.

Lemma study_list_ok (code : string) (w : World) (l : list StudyEntry) :
  fst (get_student_words_for_study clock uuid4 code w) = Ok l ->
  (forall x, In x (class_words_of code w) -> has_date code w x = false)
  /\ fst (study_loop clock uuid4 code w) = Ok (entries_of code w)
  /\ l = arrange (entries_of code w).
Proof.
  intros H. destruct (dated_or_not code w) as [Hd | Hn].
  - rewrite (study_list_raises code w Hd) in H. discriminate.
  - rewrite (study_list_returns code w Hn) in H. injection H as <-.
    split; [exact Hn |]. split; [| reflexivity].
    unfold study_loop. now rewrite (study_loop_returns clock uuid4 code _ [] w Hn).
Qed.

Lemma study_list_type_error (code : string) (w : World) :
  fst (get_student_words_for_study clock uuid4 code w) = TypeError ->
  exists x, In x (class_words_of code w) /\ has_date code w x = true.
Proof.
  intros H. destruct (dated_or_not code w) as [Hd | Hn]; [exact Hd |].
  rewrite (study_list_returns code w Hn) in H. discriminate.
Qed.

Lemma study_list_frame (code : string) (w : World) :
  let w' := snd (get_student_words_for_study clock uuid4 code w) in
  students w' = students w /\ words w' = words w
  /\ (ticks w <= ticks w')%nat
  /\ exists extra,
       progress w' = progress w ++ extra
       /\ Forall (fun p => fresh p /\ p_student_code p = code) extra.
Proof.
  rewrite study_list_eq. cbn [snd]. unfold study_loop.
  apply study_loop_frame.
Qed.

Lemma get_next_word_world (code : string) (w : World) :
  snd (get_next_word clock uuid4 code w)
  = snd (get_student_words_for_study clock uuid4 code w).
Proof.
  unfold get_next_word, try_bind.
  destruct (get_student_words_for_study clock uuid4 code w)
    as [[[| e l] | c d |] w']; reflexivity.
Qed.

Lemma get_next_word_raises (code : string) (w : World) :
  fst (get_student_words_for_study clock uuid4 code w) = TypeError ->
  fst (get_next_word clock uuid4 code w) = TypeError.
Proof.
  unfold get_next_word, try_bind.
  destruct (get_student_words_for_study clock uuid4 code w) as [r w'].
  cbn [fst]. now intros ->.
Qed.
End StudyList.

Lemma for_each_progress {A B : Type} (body : A -> B -> M B) (l : list A) :
  (forall x acc w, progress (snd (body x acc w)) = progress w) ->
  forall acc w, progress (snd (for_each l body acc w)) = progress w.
Proof.
  intros Hbody. induction l as [| x l IH]; intros acc w; [reflexivity |].
  rewrite for_each_cons, IH. apply Hbody.
Qed.

Section WorldOfRequests.
Variable clock : nat -> datetime.
Variable uuid4 : nat -> string.

Lemma get_student_words_world (code : string) (w : World) :
  progress (snd (get_student_words code w)) = progress w.
Proof.
  unfold get_student_words, bind, students_find_one, words_find_class.
  destruct (find _ (students w)) as [st |]; [| reflexivity].
  match goal with
  | |- context [for_each ?l ?body ?acc ?v] =>
      assert (H := for_each_progress body l (fun _ _ _ => eq_refl) acc v);
      destruct (for_each l body acc v)
  end.
  exact H.
Qed.

Lemma upload_students_world (filename : string) (rows : list (list string))
    (w : World) :
  progress (snd (upload_students clock uuid4 filename rows w)) = progress w.
Proof.
  unfold upload_students, bind.
  destruct (negb _); [reflexivity |].
  assert (H : forall acc,
             progress (snd (for_each rows (upload_students_row clock uuid4)
                              acc w)) = progress w);
    [| specialize (H (0%nat, 0%nat));
       now destruct (for_each rows _ _ w)].
  intros acc0. apply for_each_progress.
  intros row acc v. unfold upload_students_row.
  destruct (map PyStr.strip row) as [| c [| n [| cl [| ? ?]]]];
    try reflexivity.
  unfold bind, students_find_one.
  destruct (find _ (students v)); reflexivity.
Qed.

Lemma upload_words_world (filename : string) (rows : list (list string))
    (w : World) :
  progress (snd (upload_words clock uuid4 filename rows w)) = progress w.
Proof.
  unfold upload_words, bind.
  destruct (negb _); [reflexivity |].
  assert (H : forall acc,
             progress (snd (for_each rows (upload_words_row clock uuid4)
                              acc w)) = progress w);
    [| specialize (H 0%nat); now destruct (for_each rows _ _ w)].
  intros acc0. apply for_each_progress.
  intros row acc v. unfold upload_words_row.
  destruct (map PyStr.strip row) as [| c [| n [| cl [| ? ?]]]];
    try reflexivity.
  unfold bind, words_find_one_class_english.
  destruct (find _ (words v)); reflexivity.
Qed.
End WorldOfRequests.




(** ** C6: lazy creation of progress documents *)

(** C6. With [hello] studied on 1 January and [book], a word of the same
    class, without a progress document, computing the study list raises
    [TypeError] at [hello]: when [hello] comes first in the catalog no
    document is created for [book]; when [book] comes first its document is
    created, in box 1 and never studied, but no list is returned; either way
    [get_next_word] answers with the exception and [book] is not offered. *)
Theorem dated_word_stops_lazy_creation :
  In book (class_words_of "9011" two_words)
  /\ progress_of "9011" (w_id book) two_words = None
  /\ fst (get_student_words_for_study sample_clock sample_uuid4 "9011"
            two_words) = TypeError
  /\ progress (snd (get_student_words_for_study sample_clock sample_uuid4
                      "9011" two_words)) = progress two_words
  /\ fst (get_next_word sample_clock sample_uuid4 "9011" two_words)
     = TypeError
  /\ fst (get_student_words_for_study sample_clock sample_uuid4 "9011"
            two_words_reversed) = TypeError
  /\ progress (snd (get_student_words_for_study sample_clock sample_uuid4
                      "9011" two_words_reversed))
     = [studied 2;
        mkProgress (Some "w1") "9011" "w9" 1 None (Some (noon 2024 1 2))
          (noon 2024 1 2)]
  /\ fst (get_next_word sample_clock sample_uuid4 "9011" two_words_reversed)
     = TypeError.
Proof.
  split; [cbn; tauto |]. repeat split; reflexivity.
Qed.

(** ** C4: the order of the study list *)



(** ** C2: the midnight rule and the dates read back from the store *)

(** C2. On an aware date [is_midnight_passed] computes the midnight rule;
    on a date read back from the store, which is naive, it raises
    [TypeError]. With [hello] in box 2, studied on 1 January at 23:59, the
    day has changed at 00:00 of 2 January and the rule calls for the word to
    be offered; the study list and [get_next_word] raise instead, at 00:00
    and at noon. *)
Theorem stored_date_raises_type_error :
  (forall (clock : nat -> datetime) (last : datetime) (w : World),
     fst (is_midnight_passed clock (Some (Aware last)) w)
     = Ok (day_changed last (clock (ticks w))))
  /\ (forall (clock : nat -> datetime) (last : datetime) (w : World),
        fst (is_midnight_passed clock (Some (Naive last)) w) = TypeError)
  /\ In hello (class_words_of "9011" (studied_world 2))
  /\ progress_of "9011" (w_id hello) (studied_world 2) = Some (studied 2)
  /\ get_last_studied_date (studied 2) = Some (Naive (jan 1 23 59))
  /\ day_changed (jan 1 23 59) (midnight_clock 0) = true
  /\ fst (get_student_words_for_study midnight_clock sample_uuid4 "9011"
            (studied_world 2)) = TypeError
  /\ fst (get_next_word midnight_clock sample_uuid4 "9011" (studied_world 2))
     = TypeError
  /\ fst (get_next_word sample_clock sample_uuid4 "9011" (studied_world 2))
     = TypeError.
Proof.
  split; [reflexivity |]. split; [reflexivity |].
  split; [cbn; tauto |]. repeat split; reflexivity.
Qed.

(** ** C3: box 5 *)


(** * Further properties of the handlers *)

(** ** What every request keeps of the progress collection *)

Lemma for_each_try_invariant {A B : Type} (P : World -> Prop)
    (body : A -> B -> M (Reply B)) (l : list A) :
  (forall x acc w, P w -> P (snd (body x acc w))) ->
  forall acc w, P w -> P (snd (for_each_try l body acc w)).
Proof.
  intros Hbody. induction l as [| x l IH]; intros acc w Hw; [exact Hw |].
  rewrite for_each_try_cons. specialize (Hbody x acc w Hw).
  destruct (fst (body x acc w)); [now apply IH | exact Hbody | exact Hbody].
Qed.

Lemma update_box_grows (ok : bool) (b : Z) : b <= fst (update_box ok b).
Proof.
  unfold update_box. destruct ok; cbn; [| lia].
  destruct (Z.ltb_spec b 5); cbn; [lia |].
  destruct (Z.eqb_spec b 5); cbn; lia.
Qed.

Lemma update_box_in_range (ok : bool) (b : Z) :
  1 <= b <= 5 -> 1 <= fst (update_box ok b) <= 5.
Proof.
  intros Hb. unfold update_box. destruct ok; cbn; [| lia].
  destruct (Z.ltb_spec b 5); cbn; [lia |].
  destruct (Z.eqb_spec b 5); cbn; lia.
Qed.

Section Preservation.
Variable clock : nat -> datetime.
Variable uuid4 : nat -> string.

(** A property of the progress collection that survives the two writes the
    handlers make survives every request. *)
Variable P : list Progress -> Prop.

Hypothesis P_insert :
  forall l code id i c u,
    find (match_progress code id) l = None ->
    P l -> P (l ++ [mkProgress (Some i) code id 1 None (Some c) u]).

Hypothesis P_upsert :
  forall l code id ok s u,
    P l ->
    P (upsert code id
         (fst (update_box ok
                 (current_box_of (find (match_progress code id) l))))
         s u l).

Lemma study_step_preserves (code : string) (word : Word)
    (acc : list StudyEntry) (w : World) :
  P (progress w) ->
  P (progress (snd (study_step clock uuid4 code word acc w))).
Proof.
  intros Hw.
  destruct (progress_of code (w_id word) w) as [p |] eqn:Hp.
  - destruct (p_last_studied_date p) as [d |] eqn:Hd.
    + now rewrite (study_step_studied clock uuid4 code word acc w p d Hp Hd).
    + now rewrite (study_step_unstudied clock uuid4 code word acc w p Hp Hd).
  - rewrite (study_step_new clock uuid4 code word acc w Hp). cbn.
    now apply P_insert.
Qed.

Lemma study_list_preserves (code : string) (w : World) :
  P (progress w) ->
  P (progress (snd (get_student_words_for_study clock uuid4 code w))).
Proof.
  intros Hw. rewrite study_list_eq. cbn [snd]. unfold study_loop.
  apply (for_each_try_invariant (fun v => P (progress v))); [| exact Hw].
  intros word acc v. apply study_step_preserves.
Qed.

Lemma get_student_stats_world (code : string) (w : World) :
  snd (get_student_stats clock uuid4 code w)
  = match find (fun s => String.eqb (s_code s) code) (students w) with
    | Some _ =>
        snd (get_student_words_for_study clock uuid4 code (after_reading w))
    | None => w
    end.
Proof.
  unfold get_student_stats, bind, try_bind, students_find_one,
    words_find_class, progress_aggregate, now, progress_count_since,
    after_reading.
  destruct (find _ (students w)) as [st |]; [| reflexivity].
  now destruct (get_student_words_for_study clock uuid4 code _)
    as [[l | c d |] w'].
Qed.

Lemma serve_preserves (r : Request) (w : World) :
  P (progress w) -> P (progress (serve clock uuid4 r w)).
Proof.
  intros Hw.
  destruct r as [c | c | session | c | c | f rows | f rows]; cbn [serve].
  - unfold student_login, bind, students_find_one.
    now destruct (find _ (students w)).
  - rewrite get_next_word_world. now apply study_list_preserves.
  - destruct (find (fun x => String.eqb (w_id x) (ss_word_id session))
                   (words w)) as [wd |] eqn:Hk.
    + rewrite (submit_answer_known clock session w wd Hk).
      cbn [snd progress]. apply P_upsert, Hw.
    + now rewrite (submit_answer_unknown clock session w Hk).
  - rewrite get_student_stats_world.
    destruct (find _ (students w)); [| exact Hw].
    now apply study_list_preserves.
  - now rewrite get_student_words_world.
  - now rewrite upload_students_world.
  - now rewrite upload_words_world.
Qed.

Lemma serve_all_preserves (rs : list Request) :
  forall w, P (progress w) -> P (progress (serve_all clock uuid4 rs w)).
Proof.
  unfold serve_all. induction rs as [| r rs IH]; intros w Hw; [exact Hw |].
  cbn. apply IH. now apply serve_preserves.
Qed.
End Preservation.

Lemma find_none_key (c i : string) (l : list Progress) :
  find (match_progress c i) l = None -> ~ In (c, i) (map key_of l).
Proof.
  induction l as [| p l IH]; cbn; [tauto |].
  destruct (match_progress c i p) eqn:Hm; [discriminate |].
  intros Hf [Hk | Hin]; [| now apply IH].
  unfold key_of in Hk. injection Hk as Hc Hi.
  unfold match_progress in Hm. rewrite Hc, Hi, !String.eqb_refl in Hm.
  discriminate.
Qed.

Lemma nodup_snoc {A : Type} (l : list A) (a : A) :
  NoDup l -> ~ In a l -> NoDup (l ++ [a]).
Proof.
  intros Hl Ha. induction Hl as [| x l Hx Hl IH]; cbn.
  - constructor; [tauto | constructor].
  - constructor.
    + rewrite in_app_iff. cbn. intros [H | [H | []]]; [tauto |].
      apply Ha. now left.
    + apply IH. intros H. apply Ha. now right.
Qed.

(** X1. Whatever requests are served, in whatever order, a progress
    collection whose documents are all in boxes 1 to 5 stays so: no handler
    writes a box number outside the five boxes. *)
Theorem boxes_stay_in_range (clock : nat -> datetime) (uuid4 : nat -> string)
    (rs : list Request) (w : World) :
  boxes_in_range (progress w) ->
  boxes_in_range (progress (serve_all clock uuid4 rs w)).
Proof.
  apply serve_all_preserves; unfold boxes_in_range.
  - intros l code id i c u _ Hl. apply Forall_app. split; [exact Hl |].
    repeat constructor; cbn; lia.
  - intros l code id ok s u Hl.
    destruct (find (match_progress code id) l) as [p |] eqn:Hf;
      cbn [current_box_of].
    + destruct (upsert_present code id
                  (fst (update_box ok (p_box_number p))) s u l p Hf)
        as (l1 & l2 & El & _ & Eu).
      rewrite Eu. rewrite El in Hl.
      apply Forall_app in Hl as [H1 H2]. inversion H2 as [| ? ? Hp H3]; subst.
      apply Forall_app. split; [exact H1 |].
      constructor; [| exact H3]. cbn. now apply update_box_in_range.
    + rewrite (upsert_absent _ _ _ _ _ _ Hf).
      apply Forall_app. split; [exact Hl |].
      repeat constructor; cbn; apply update_box_in_range; lia.
Qed.

Lemma boxes_stay_in_range_witness :
  boxes_in_range
    (progress
       (serve_all sample_clock sample_uuid4
          [GetNextWord "9011"; SubmitAnswer (answer_to (catalog_word "d") "x");
           SubmitAnswer (answer_to (catalog_word "e") "x")]
          mixed_world)).
Proof.
  apply (boxes_stay_in_range sample_clock sample_uuid4 _ mixed_world).
  repeat constructor; cbn; lia.
Defined.

(** X2. Whatever requests are served, a progress collection that holds at
    most one document per pair of student code and word id keeps at most one:
    the study list inserts a document only after [find_one] found none, and
    [submit_answer] rewrites the matching document or inserts the only one. *)
Theorem pairs_stay_unique (clock : nat -> datetime) (uuid4 : nat -> string)
    (rs : list Request) (w : World) :
  unique_pairs (progress w) ->
  unique_pairs (progress (serve_all clock uuid4 rs w)).
Proof.
  apply serve_all_preserves; unfold unique_pairs.
  - intros l code id i c u Hf Hl. rewrite map_app. cbn.
    apply nodup_snoc; [exact Hl |]. now apply find_none_key.
  - intros l code id ok s u Hl.
    destruct (find (match_progress code id) l) as [p |] eqn:Hf;
      cbn [current_box_of].
    + destruct (upsert_present code id
                  (fst (update_box ok (p_box_number p))) s u l p Hf)
        as (l1 & l2 & El & _ & Eu).
      rewrite Eu. rewrite El in Hl.
      rewrite map_app in Hl |- *. exact Hl.
    + rewrite (upsert_absent _ _ _ _ _ _ Hf), map_app. cbn.
      apply nodup_snoc; [exact Hl |]. now apply find_none_key.
Qed.

Lemma pairs_stay_unique_witness :
  unique_pairs
    (progress
       (serve_all sample_clock sample_uuid4
          [SubmitAnswer (answer_to (catalog_word "g") "x");
           GetNextWord "9011"; GetStudentStats "9011"]
          mixed_world)).
Proof.
  apply (pairs_stay_unique sample_clock sample_uuid4 _ mixed_world).
  unfold unique_pairs. cbn.
  repeat (constructor; [cbn; intuition discriminate |]). constructor.
Defined.

(** X3. No sequence of requests ever deletes a progress document, moves a
    word to a lower box, or clears a last study date: a wrong answer leaves
    the box where it is, and there is no demotion. *)
Theorem boxes_never_regress (clock : nat -> datetime) (uuid4 : nat -> string)
    (rs : list Request) (w : World) :
  never_regressed (progress w) (progress (serve_all clock uuid4 rs w)).
Proof.
  apply (serve_all_preserves clock uuid4 (never_regressed (progress w)));
    unfold never_regressed.
  - intros l code id i c u _ Hl c0 i0 p Hp.
    destruct (Hl c0 i0 p Hp) as (p' & Hf & Hb & Hd).
    exists p'. split; [now apply find_app_some | now split].
  - intros l code id ok s u Hl c0 i0 p Hp.
    destruct (Hl c0 i0 p Hp) as (p' & Hf & Hb & Hd).
    destruct (string_dec code c0) as [Hc | Hc];
      [destruct (string_dec id i0) as [Hi | Hi] |].
    + subst c0 i0. rewrite Hf. cbn [current_box_of].
      destruct (find_upsert_same code id
                  (fst (update_box ok (p_box_number p'))) s u l)
        as (q & Hq & Hqb & Hqd & _).
      exists q. split; [exact Hq |]. split.
      * rewrite Hqb. pose proof (update_box_grows ok (p_box_number p')). lia.
      * intros _. rewrite Hqd. discriminate.
    + exists p'. rewrite find_upsert_other by congruence. now repeat split.
    + exists p'. rewrite find_upsert_other by congruence. now repeat split.
  - intros code id p Hp. exists p. split; [exact Hp |]. split; [lia | tauto].
Qed.

(** ** The study list: what it writes, and what comes first *)

(** X4. Building the study list leaves students, words and every existing
    progress document as they are and only appends never-studied box-1
    documents of that student; built again right after, it appends
    nothing. *)
Theorem study_list_creates_once (clock : nat -> datetime)
    (uuid4 : nat -> string) (code : string) (w : World) :
  let w1 := snd (get_student_words_for_study clock uuid4 code w) in
  students w1 = students w /\ words w1 = words w
  /\ (exists extra,
        progress w1 = progress w ++ extra
        /\ Forall (fun p => fresh p /\ p_student_code p = code) extra)
  /\ progress (snd (get_student_words_for_study clock uuid4 code w1))
     = progress w1.
Proof.
  intros w1. subst w1.
  destruct (study_list_frame clock uuid4 code w) as (Hs & Hw & _ & Hx).
  split; [exact Hs |]. split; [exact Hw |]. split; [exact Hx |].
  rewrite (study_list_eq clock uuid4 code
             (snd (get_student_words_for_study clock uuid4 code w))).
  cbn [snd]. unfold study_loop.
  replace (class_words_of code
             (snd (get_student_words_for_study clock uuid4 code w)))
    with (class_words_of code w)
    by (unfold class_words_of; now rewrite Hs, Hw).
  apply (study_loop_again clock uuid4 code _ [] w).
  rewrite study_list_eq. reflexivity.
Qed.

Lemma arrange_head (l : list StudyEntry) (e0 : StudyEntry)
    (rest : list StudyEntry) :
  arrange l = e0 :: rest ->
  forall e, In e (e0 :: rest) -> e_box e < 5 -> e_box e <= e_box e0 < 5.
Proof.
  unfold arrange. intros E e Hin Hlt.
  pose proof (list_sort_sorted e_box true
                (filter (fun e => e_can_study e && (e_box e <? 5)) l)) as Hs.
  assert (Hb : forall x,
             In x (filter (fun e => e_can_study e && (e_box e =? 5)) l) ->
             e_box x = 5).
  { intros x Hx. apply filter_In in Hx as [_ Hx].
    apply andb_true_iff in Hx as [_ Hx]. lia. }
  assert (Ha : forall x,
             In x (list_sort e_box true
                     (filter (fun e => e_can_study e && (e_box e <? 5)) l)) ->
             e_box x < 5).
  { intros x Hx. apply list_sort_in, filter_In in Hx as [_ Hx].
    apply andb_true_iff in Hx as [_ Hx]. lia. }
  rewrite <- E in Hin.
  destruct (list_sort e_box true
              (filter (fun e => e_can_study e && (e_box e <? 5)) l))
    as [| x s]; cbn [app] in E, Hin.
  - apply Hb in Hin. lia.
  - injection E as Ex _. subst e0.
    split; [| apply Ha; now left].
    destruct Hin as [Hin | Hin]; [subst; lia |].
    apply in_app_iff in Hin as [Hin | Hin]; [| apply Hb in Hin; lia].
    apply StronglySorted_inv in Hs as [_ Hs].
    rewrite Forall_forall in Hs. apply Hs in Hin. exact Hin.
Qed.

(** X5. [get_next_word] passes the [TypeError] of the study list on and
    raises nothing of its own. When the list is returned, it reports
    completion exactly when the list is empty; otherwise it hands out the
    head of the list with the length of the list as [remaining_words], and
    the box of that word is the highest box below 5 that holds an entry: a
    box-5 word comes first only when no entry is in a lower box. *)
Theorem next_word_choice (clock : nat -> datetime) (uuid4 : nat -> string)
    (code : string) (w : World) :
  let r := fst (get_student_words_for_study clock uuid4 code w) in
  (fst (get_next_word clock uuid4 code w) = TypeError <-> r = TypeError)
  /\ (fst (get_next_word clock uuid4 code w) = Ok Completed <-> r = Ok [])
  /\ (forall e0 rest,
        r = Ok (e0 :: rest) ->
        fst (get_next_word clock uuid4 code w)
        = Ok (Next (w_id (e_word e0)) (w_english (e_word e0)) (e_box e0)
                   (List.length (e0 :: rest)))
        /\ forall e, In e (e0 :: rest) -> e_box e < 5 ->
                     e_box e <= e_box e0 < 5).
Proof.
  intros r. subst r. unfold get_next_word, try_bind.
  pose proof (study_list_ok clock uuid4 code w) as Hok.
  destruct (get_student_words_for_study clock uuid4 code w) as [r w'].
  cbn [fst] in *. split; [| split].
  - destruct r as [[| e l] | c d |]; cbn; split; intros H;
      try reflexivity; discriminate.
  - destruct r as [[| e l] | c d |]; cbn; split; intros H;
      try reflexivity; discriminate.
  - intros e0 rest ->. cbn. split; [reflexivity |].
    destruct (Hok _ eq_refl) as (_ & _ & Ha).
    symmetry in Ha. exact (arrange_head _ e0 rest Ha).
Qed.

Lemma next_word_choice_witness :
  fst (get_next_word sample_clock sample_uuid4 "9011" mixed_world)
  = Ok (Next "d" "d" 4 7).
Proof.
  exact (proj1 (proj2 (proj2 (next_word_choice sample_clock sample_uuid4
                                "9011" mixed_world)) _ _ eq_refl)).
Defined.

(** ** An answer and the study lists that follow *)

Section AfterAnswer.
Variable clock : nat -> datetime.
Variable uuid4 : nat -> string.

Lemma submit_answer_stamps (session : StudySession) (w : World) (wd : Word) :
  find (fun x => String.eqb (w_id x) (ss_word_id session)) (words w)
  = Some wd ->
  exists resp p',
    submit_answer clock session w
    = (Ok resp,
       mkWorld (students w) (words w)
         (upsert (ss_student_code session) (ss_word_id session)
            (sr_new_box resp) (clock (ticks w)) (clock (S (ticks w)))
            (progress w))
         (S (S (ticks w))) (draws w))
    /\ progress_of (ss_student_code session) (ss_word_id session)
         (snd (submit_answer clock session w)) = Some p'
    /\ p_box_number p' = sr_new_box resp
    /\ p_last_studied_date p' = Some (clock (ticks w)).
Proof.
  intros Hk. rewrite (submit_answer_known clock session w wd Hk).
  cbn [snd]. unfold progress_of at 2. cbn [progress].
  match goal with
  | |- context [upsert ?c ?i ?b ?s ?u ?l] =>
      destruct (find_upsert_same c i b s u l) as (p' & Hf & Hb & Hd & _)
  end.
  match goal with
  | |- exists resp p', (Ok ?r, _) = _ /\ _ => exists r, p'
  end.
  cbn [sr_new_box]. now repeat split.
Qed.
End AfterAnswer.

Lemma class_word_known (code id : string) (w : World) (word : Word) :
  In word (class_words_of code w) -> w_id word = id ->
  (exists st, find (fun s => String.eqb (s_code s) code) (students w)
              = Some st)
  /\ exists wd, find (fun x => String.eqb (w_id x) id) (words w) = Some wd.
Proof.
  intros Hin Hid. unfold class_words_of in Hin.
  destruct (find _ (students w)) as [st |]; [| destruct Hin].
  split; [now exists st |].
  apply filter_In in Hin as [Hin _].
  destruct (find (fun x => String.eqb (w_id x) id) (words w)) as [wd |]
    eqn:Hf; [now exists wd |].
  apply (find_none _ _ Hf) in Hin. rewrite Hid, String.eqb_refl in Hin.
  discriminate.
Qed.

Lemma has_date_spec (code : string) (w : World) (x : Word) :
  has_date code w x = true
  <-> exists p d, progress_of code (w_id x) w = Some p
                  /\ p_last_studied_date p = Some d.
Proof.
  unfold has_date. destruct (progress_of code (w_id x) w) as [p |].
  - destruct (p_last_studied_date p) as [d |] eqn:Hd; split.
    + intros _. now exists p, d.
    + reflexivity.
    + discriminate.
    + intros (p' & d & Hp & Hd'). injection Hp as <-. congruence.
  - split; [discriminate | intros (p & d & Hp & _); discriminate].
Qed.

Section Blocked.
Variable clock : nat -> datetime.
Variable uuid4 : nat -> string.

(** Some word of the student's class has a dated progress document. *)
Local Abbreviation blocked code w :=
  (exists x, In x (class_words_of code w) /\ has_date code w x = true).

Lemma get_student_stats_known (code : string) (w : World) (st : Student) :
  find (fun s => String.eqb (s_code s) code) (students w) = Some st ->
  fst (get_student_stats clock uuid4 code w)
  = match fst (get_student_words_for_study clock uuid4 code
                 (after_reading w)) with
    | Ok words_to_study =>
        Ok (mkStudentStats
              (List.length (class_words_of code w))
              (fold_left (fun d stat => dict_set (fst stat) (snd stat) d)
                 (fold_left (fun acc p => count_into (p_box_number p) acc)
                    (filter (fun p => String.eqb (p_student_code p) code)
                            (progress w)) [])
                 [(1, 0%nat); (2, 0%nat); (3, 0%nat); (4, 0%nat);
                  (5, 0%nat)])
              (List.length
                 (filter (fun p =>
                            String.eqb (p_student_code p) code
                            && match p_last_studied_date p with
                               | Some d =>
                                   dt_ge d
                                     (replace_midnight (clock (ticks w)))
                               | None => false
                               end) (progress w)))
              (List.length words_to_study))
    | HTTPException status_code detail => HTTPException status_code detail
    | TypeError => TypeError
    end.
Proof.
  intros H.
  unfold get_student_stats, bind, try_bind, students_find_one,
    words_find_class, progress_aggregate, now, progress_count_since,
    class_words_of, after_reading.
  rewrite H.
  now destruct (get_student_words_for_study clock uuid4 code _)
    as [[l | c d |] w'].
Qed.

Lemma blocked_requests (code : string) (w : World) :
  blocked code w ->
  fst (get_student_words_for_study clock uuid4 code w) = TypeError
  /\ fst (get_next_word clock uuid4 code w) = TypeError
  /\ fst (get_student_stats clock uuid4 code w) = TypeError.
Proof.
  intros H. assert (H1 := study_list_raises clock uuid4 code w H).
  split; [exact H1 |]. split; [now apply get_next_word_raises |].
  destruct H as (x & Hin & Hx).
  destruct (class_word_known code (w_id x) w x Hin eq_refl) as [[st Hst] _].
  rewrite (get_student_stats_known code w st Hst).
  now rewrite (study_list_raises clock uuid4 code (after_reading w))
    by (exists x; now split).
Qed.

Lemma submit_answer_blocks (session : StudySession) (w : World)
    (word : Word) :
  In word (class_words_of (ss_student_code session) w) ->
  w_id word = ss_word_id session ->
  (exists resp, fst (submit_answer clock session w) = Ok resp)
  /\ blocked (ss_student_code session) (snd (submit_answer clock session w)).
Proof.
  intros Hin Hid.
  destruct (class_word_known _ _ w word Hin Hid) as [_ [wd Hk]].
  destruct (submit_answer_stamps clock session w wd Hk)
    as (resp & p' & Hs & Hp & _ & Hd).
  split; [exists resp; now rewrite Hs |].
  exists word. split.
  - rewrite Hs. exact Hin.
  - apply has_date_spec. exists p', (clock (ticks w)). now rewrite Hid.
Qed.
End Blocked.

(** X6. Once [submit_answer] has recorded an answer, right or wrong, for a
    word of the student's class, every request of that student that builds
    the study list fails: the study list, [get_next_word] and
    [get_student_stats] raise [TypeError], whatever the clock reads. *)
Theorem answer_stops_study (clock : nat -> datetime) (uuid4 : nat -> string)
    (session : StudySession) (w : World) (word : Word) :
  In word (class_words_of (ss_student_code session) w) ->
  w_id word = ss_word_id session ->
  let code := ss_student_code session in
  let w1 := snd (submit_answer clock session w) in
  (exists resp, fst (submit_answer clock session w) = Ok resp)
  /\ fst (get_student_words_for_study clock uuid4 code w1) = TypeError
  /\ fst (get_next_word clock uuid4 code w1) = TypeError
  /\ fst (get_student_stats clock uuid4 code w1) = TypeError.
Proof.
  intros Hin Hid code w1.
  destruct (submit_answer_blocks clock session w word Hin Hid) as [Hr Hb].
  split; [exact Hr |]. now apply blocked_requests.
Qed.

Lemma answer_stops_study_witness :
  fst (get_next_word sample_clock sample_uuid4 "9011"
         (snd (submit_answer sample_clock (answer_to hello "merhaba")
                 sample_world))) = TypeError.
Proof.
  destruct (answer_stops_study sample_clock sample_uuid4
              (answer_to hello "merhaba") sample_world hello
              (or_introl eq_refl) eq_refl) as (_ & _ & H & _).
  exact H.
Defined.

Section LazyCreation.
Variable clock : nat -> datetime.
Variable uuid4 : nat -> string.
Variable code : string.

Lemma study_loop_creates (l : list Word) :
  forall acc w x,
    (forall y, In y l -> has_date code w y = false) ->
    In x l ->
    progress_of code (w_id x)
      (snd (for_each_try l (study_step clock uuid4 code) acc w)) <> None.
Proof.
  induction l as [| word l IH]; intros acc w x H Hin; [destruct Hin |].
  rewrite for_each_try_cons.
  assert (Hw := H word (or_introl eq_refl)). unfold has_date in Hw.
  assert (Hkeep : forall v a,
             progress_of code (w_id word) v <> None ->
             progress_of code (w_id word)
               (snd (for_each_try l (study_step clock uuid4 code) a v))
             <> None).
  { intros v a Hv.
    destruct (study_loop_frame clock uuid4 code l a v)
      as (_ & _ & _ & extra & Hg & _).
    cbn zeta in Hg. unfold progress_of in *. rewrite Hg.
    destruct (find _ (progress v)) as [q |] eqn:Hq; [| easy].
    now rewrite (find_app_some _ _ _ _ Hq). }
  destruct (progress_of code (w_id word) w) as [p |] eqn:Hp.
  - destruct (p_last_studied_date p) as [d |] eqn:Hd; [discriminate |].
    rewrite (study_step_unstudied clock uuid4 code word acc w p Hp Hd).
    cbn [fst snd]. destruct Hin as [<- | Hin].
    + apply Hkeep. now rewrite Hp.
    + apply IH; [| exact Hin]. intros y Hy. apply H. now right.
  - rewrite (study_step_new clock uuid4 code word acc w Hp). cbn [fst snd].
    set (w' := mkWorld _ _ _ _ _).
    destruct Hin as [<- | Hin].
    + apply Hkeep. unfold progress_of in *. subst w'. cbn [progress].
      rewrite (find_app_none _ _ _ Hp). cbn. unfold match_progress. cbn.
      now rewrite !String.eqb_refl.
    + apply IH; [| exact Hin]. intros y Hy.
      rewrite (proj1 (has_date_grown code w w'
                        [mkProgress (Some (uuid4 (draws w))) code (w_id word)
                           1 None (Some (clock (ticks w)))
                           (clock (S (ticks w)))] y eq_refl
                        ltac:(repeat constructor))).
      apply H. now right.
Qed.
End LazyCreation.

(** X8. When no word of the student's class has a dated progress document,
    computing the study list gives every word of the class without a
    progress document of that student a new one, in box 1 and without a
    last study date, which is then the document of the pair, and puts the
    word on the returned list, in box 1 and in no other box. *)
Theorem undated_class_gets_documents (clock : nat -> datetime)
    (uuid4 : nat -> string) (code : string) (w : World) (word : Word) :
  (forall x p, In x (class_words_of code w) ->
               progress_of code (w_id x) w = Some p ->
               p_last_studied_date p = None) ->
  In word (class_words_of code w) ->
  progress_of code (w_id word) w = None ->
  let r := get_student_words_for_study clock uuid4 code w in
  (exists l,
     fst r = Ok l
     /\ In (mkStudyEntry word 1 true) l
     /\ forall e, In e l -> e_word e = word -> e_box e = 1)
  /\ exists extra p,
       progress (snd r) = progress w ++ extra
       /\ In p extra
       /\ progress_of code (w_id word) (snd r) = Some p
       /\ p_student_code p = code /\ p_word_id p = w_id word
       /\ p_box_number p = 1 /\ p_last_studied_date p = None.
Proof.
  intros Hund Hin Hnone r. subst r.
  assert (Hn : forall x, In x (class_words_of code w) ->
                         has_date code w x = false).
  { intros x Hx. unfold has_date.
    destruct (progress_of code (w_id x) w) as [p |] eqn:Hp; [| reflexivity].
    now rewrite (Hund x p Hx Hp). }
  split.
  - exists (arrange (entries_of code w)).
    split; [now apply study_list_returns |]. split.
    + apply in_arrange. split; [| cbn; split; [reflexivity | lia]].
      unfold entries_of. apply in_map_iff. exists word.
      split; [| exact Hin]. unfold box_in. now rewrite Hnone.
    + intros e He Hw. apply in_arrange in He as [He _].
      unfold entries_of in He. apply in_map_iff in He as (x & <- & _).
      cbn in Hw. subst x. cbn. unfold box_in. now rewrite Hnone.
  - destruct (study_list_frame clock uuid4 code w)
      as (_ & _ & _ & extra & Hg & Hf).
    pose proof (study_loop_creates clock uuid4 code (class_words_of code w)
                  [] w word Hn Hin) as Hc.
    fold (study_loop clock uuid4 code w) in Hc.
    rewrite study_list_eq in Hg |- *. cbn [snd] in Hg |- *.
    destruct (progress_of code (w_id word)
                (snd (study_loop clock uuid4 code w))) as [p |] eqn:Hp;
      [| easy].
    exists extra, p. unfold progress_of in Hp, Hnone. rewrite Hg in Hp.
    rewrite (find_app_none _ _ _ Hnone) in Hp.
    apply find_some in Hp as Hp'. destruct Hp' as [Hpin Hm].
    rewrite Forall_forall in Hf. destruct (Hf p Hpin) as [[Hb Hl] Hco].
    unfold match_progress in Hm. apply andb_true_iff in Hm as [_ Hi].
    apply String.eqb_eq in Hi.
    repeat split; trivial.
Qed.

Lemma undated_class_gets_documents_witness :
  exists l,
    fst (get_student_words_for_study sample_clock sample_uuid4 "9011"
           sample_world) = Ok l
    /\ In (mkStudyEntry hello 1 true) l.
Proof.
  destruct (undated_class_gets_documents sample_clock sample_uuid4 "9011"
              sample_world hello) as [(l & H1 & H2 & _) _].
  - intros x p _ Hp. discriminate Hp.
  - now left.
  - reflexivity.
  - exists l. split; [exact H1 | exact H2].
Defined.

(** ** The statistics of a student *)

Lemma count_into_keys (Q : Z -> Prop) (k : Z) (d : list (Z * nat)) :
  Q k -> Forall (fun b => Q (fst b)) d ->
  Forall (fun b => Q (fst b)) (count_into k d).
Proof.
  intros Hk Hd. induction Hd as [| [k' n] d Hh Hd IH]; cbn.
  - now repeat constructor.
  - destruct (k <? k'); [now repeat constructor |].
    destruct (k =? k'); constructor; trivial.
Qed.

Lemma count_into_sorted (k : Z) (d : list (Z * nat)) :
  keys_increase d -> keys_increase (count_into k d).
Proof.
  unfold keys_increase. intros Hd.
  induction Hd as [| [k' n] d Hd IH Hall]; cbn.
  - repeat constructor.
  - destruct (Z.ltb_spec k k').
    + constructor; [now constructor |]. constructor; [exact H |].
      revert Hall. apply Forall_impl. cbn. intros; lia.
    + destruct (Z.eqb_spec k k').
      * constructor; [exact Hd | exact Hall].
      * constructor; [exact IH |].
        apply (count_into_keys (fun x => k' < x)); [lia | exact Hall].
Qed.

Lemma dict_get_beyond (k k1 : Z) (d : list (Z * nat)) :
  k <= k1 -> Forall (fun b => k1 < fst b) d -> dict_get k d = None.
Proof.
  intros Hk Hd. unfold dict_get.
  induction Hd as [| [k' n] d Hh Hd IH]; cbn; [reflexivity |].
  cbn in Hh. destruct (Z.eqb_spec k' k); [lia | exact IH].
Qed.

Lemma dict_val_cons (k k' : Z) (n : nat) (d : list (Z * nat)) :
  dict_val k ((k', n) :: d) = if k' =? k then n else dict_val k d.
Proof. unfold dict_val, dict_get. cbn. now destruct (k' =? k). Qed.

Lemma dict_val_count_into (k k' : Z) (d : list (Z * nat)) :
  keys_increase d ->
  dict_val k (count_into k' d)
  = (dict_val k d + if (k =? k')%Z then 1 else 0)%nat.
Proof.
  unfold keys_increase. intros Hd.
  induction Hd as [| [k1 n] d Hd IH Hall].
  - cbn. rewrite dict_val_cons. unfold dict_val, dict_get. cbn.
    rewrite Z.eqb_sym. now destruct (k =? k').
  - cbn [count_into]. destruct (Z.ltb_spec k' k1).
    + rewrite (dict_val_cons k k'). rewrite (Z.eqb_sym k' k).
      destruct (Z.eqb_spec k k'); [| lia].
      subst k'. rewrite dict_val_cons.
      destruct (Z.eqb_spec k1 k); [lia |].
      unfold dict_val. now rewrite (dict_get_beyond k k1 d) by (lia || trivial).
    + destruct (Z.eqb_spec k' k1).
      * subst k1. rewrite !dict_val_cons. rewrite (Z.eqb_sym k' k).
        destruct (Z.eqb_spec k k'); lia.
      * rewrite !dict_val_cons.
        destruct (Z.eqb_spec k1 k); [| exact IH].
        destruct (Z.eqb_spec k k'); lia.
Qed.

Lemma aggregate_counts (k : Z) (l : list Progress) :
  forall acc,
    keys_increase acc ->
    let r := fold_left (fun acc p => count_into (p_box_number p) acc) l acc in
    keys_increase r
    /\ dict_val k r
       = (dict_val k acc
          + List.length (filter (fun p => (p_box_number p =? k)%Z) l))%nat.
Proof.
  induction l as [| p l IH]; intros acc Hacc; cbn.
  - split; [exact Hacc | lia].
  - destruct (IH (count_into (p_box_number p) acc)
                (count_into_sorted _ _ Hacc)) as [Hs Hv].
    split; [exact Hs |]. cbn zeta in Hv. rewrite Hv.
    rewrite dict_val_count_into by exact Hacc.
    rewrite (Z.eqb_sym k). destruct (p_box_number p =? k); cbn; lia.
Qed.

Lemma dict_get_set (k k' : Z) (v : nat) (d : list (Z * nat)) :
  dict_get k (dict_set k' v d) = if k =? k' then Some v else dict_get k d.
Proof.
  unfold dict_get. induction d as [| [k1 v1] d IH]; cbn.
  - rewrite (Z.eqb_sym k' k). now destruct (k =? k').
  - destruct (Z.eqb_spec k' k1); cbn.
    + subst k1. rewrite (Z.eqb_sym k' k). now destruct (k =? k').
    + destruct (Z.eqb_spec k1 k); [| exact IH].
      destruct (Z.eqb_spec k k'); [lia | reflexivity].
Qed.

Lemma dict_get_fill (k : Z) (stats : list (Z * nat)) :
  keys_increase stats ->
  forall d,
    dict_get k (fold_left (fun d stat => dict_set (fst stat) (snd stat) d)
                  stats d)
    = match dict_get k stats with
      | Some v => Some v
      | None => dict_get k d
      end.
Proof.
  unfold keys_increase. intros Hs.
  induction Hs as [| [k1 v1] stats Hs IH Hall]; intros d; [reflexivity |].
  cbn [fold_left fst snd]. rewrite IH, dict_get_set.
  unfold dict_get at 3. cbn [find fst]. rewrite (Z.eqb_sym k1 k).
  destruct (Z.eqb_spec k k1).
  - subst k1. now rewrite (dict_get_beyond k k stats) by (lia || trivial).
  - reflexivity.
Qed.

Lemma dict_set_keys (k : Z) (v : nat) (d : list (Z * nat)) :
  exists extra, map fst (dict_set k v d) = map fst d ++ extra.
Proof.
  induction d as [| [k1 v1] d [extra IH]]; cbn.
  - now exists [k].
  - destruct (Z.eqb_spec k k1).
    + exists []. cbn. now rewrite app_nil_r, e.
    + exists extra. cbn. now rewrite IH.
Qed.

Lemma dict_fill_keys (stats : list (Z * nat)) :
  forall d,
    exists extra,
      map fst (fold_left (fun d stat => dict_set (fst stat) (snd stat) d)
                 stats d)
      = map fst d ++ extra.
Proof.
  induction stats as [| s stats IH]; intros d; cbn.
  - exists []. now rewrite app_nil_r.
  - destruct (IH (dict_set (fst s) (snd s) d)) as [e1 H1].
    destruct (dict_set_keys (fst s) (snd s) d) as [e2 H2].
    exists (e2 ++ e1). now rewrite H1, H2, app_assoc.
Qed.

Lemma filter_filter_length {A : Type} (f g : A -> bool) (l : list A) :
  List.length (filter g (filter f l))
  = List.length (filter (fun a => f a && g a) l).
Proof.
  induction l as [| a l IH]; cbn; [reflexivity |].
  destruct (f a); cbn; [| exact IH]. destruct (g a); cbn; now rewrite IH.
Qed.

Lemma dt_ge_midnight (d n : datetime) :
  time_of_day d ->
  dt_ge d (replace_midnight n) = negb (date_ltb (date_of d) (date_of n)).
Proof.
  intros (Hh & Hm & Hs & Hu).
  unfold dt_ge, dt_compare, replace_midnight, dt_fields, date_of, date_ltb.
  cbn [lex_compare year month day hour minute second microsecond].
  destruct (Z.compare_spec (year d) (year n));
    destruct (Z.compare_spec (month d) (month n));
    destruct (Z.compare_spec (day d) (day n));
    repeat match goal with
           | |- context [Z.compare ?a 0] => destruct (Z.compare_spec a 0)
           end;
    repeat match goal with
           | |- context [?a <? ?b] => destruct (Z.ltb_spec a b)
           | |- context [?a =? ?b] => destruct (Z.eqb_spec a b)
           end; cbn; try reflexivity; lia.
Qed.

Lemma arrange_length (l : list StudyEntry) :
  Forall (fun e => e_can_study e = true /\ e_box e <= 5) l ->
  List.length (arrange l) = List.length l.
Proof.
  intros H. unfold arrange.
  rewrite length_app, (Permutation_length (list_sort_perm e_box true _)).
  induction H as [| e l [Hc Hb] H IH]; [reflexivity |].
  cbn [filter]. rewrite Hc. cbn [andb].
  destruct (Z.ltb_spec (e_box e) 5); destruct (Z.eqb_spec (e_box e) 5);
    cbn [List.length]; lia.
Qed.
(** X9. For a student that exists, [get_student_stats] raises [TypeError]
    when the study list it builds after its clock reading does. Otherwise it
    answers with the number of words of the class, with a box distribution
    whose first five keys are the boxes 1 to 5 in that order, each with the
    number of progress documents the student had in that box when the
    request came in (0 for an empty box), and with the length of that study
    list. The documents that this study list creates are not in the
    distribution. *)
Theorem stats_box_distribution (clock : nat -> datetime)
    (uuid4 : nat -> string) (code : string) (w : World) (st : Student) :
  find (fun s => String.eqb (s_code s) code) (students w) = Some st ->
  (fst (get_student_words_for_study clock uuid4 code (after_reading w))
   = TypeError ->
   fst (get_student_stats clock uuid4 code w) = TypeError)
  /\ forall l,
       fst (get_student_words_for_study clock uuid4 code (after_reading w))
       = Ok l ->
       exists stats,
         fst (get_student_stats clock uuid4 code w) = Ok stats
         /\ st_total_words stats = List.length (class_words_of code w)
         /\ (exists extra,
               map fst (st_box_distribution stats)
               = [1; 2; 3; 4; 5] ++ extra)
         /\ (forall k, 1 <= k <= 5 ->
               dict_get k (st_box_distribution stats)
               = Some (count_box code k (progress w)))
         /\ st_next_study_words stats = List.length l.
Proof.
  intros H. rewrite (get_student_stats_known clock uuid4 code w st H).
  split; [now intros -> |]. intros l ->.
  eexists. split; [reflexivity |]. cbn [st_total_words st_box_distribution
                                          st_next_study_words].
  split; [reflexivity |]. split; [apply dict_fill_keys |].
  split; [| reflexivity].
  intros k Hk.
  destruct (aggregate_counts k
              (filter (fun p => String.eqb (p_student_code p) code)
                      (progress w)) []) as [Hs Hv];
    [constructor |].
  cbn zeta in Hs, Hv. rewrite (dict_get_fill k _ Hs).
  rewrite filter_filter_length in Hv. fold (count_box code k (progress w)) in Hv.
  unfold dict_val in Hv at 1 2. cbn [dict_get find option_map] in Hv.
  destruct (dict_get k (fold_left _ _ [])) as [v |].
  - now rewrite Hv.
  - cbn in Hv. rewrite <- Hv.
    assert (Hc : k = 1 \/ k = 2 \/ k = 3 \/ k = 4 \/ k = 5) by lia.
    now destruct Hc as [-> | [-> | [-> | [-> | ->]]]].
Qed.

Lemma stats_box_distribution_witness :
  exists stats,
    fst (get_student_stats sample_clock sample_uuid4 "9011" mixed_world)
    = Ok stats
    /\ dict_get 3 (st_box_distribution stats) = Some 2%nat
    /\ st_total_words stats = 7%nat
    /\ st_next_study_words stats = 7%nat.
Proof.
  destruct (proj2 (stats_box_distribution sample_clock sample_uuid4 "9011"
                     mixed_world ali eq_refl)
              (arrange (entries_of "9011" mixed_world)) eq_refl)
    as (stats & H1 & H2 & _ & H3 & H4).
  exists stats. split; [exact H1 |]. split; [| split; [exact H2 | exact H4]].
  apply (H3 3). lia.
Defined.

(** X10. A student whose progress documents were never studied and lie in
    boxes up to 5 is offered every word of the class: the study list is
    returned and is as long as the class's word list, and the statistics
    report as many words to study as there are words and none studied
    today. *)
Theorem never_studied_all_offered (clock : nat -> datetime)
    (uuid4 : nat -> string) (code : string) (w : World) :
  never_studied code (progress w) ->
  (exists l,
     fst (get_student_words_for_study clock uuid4 code w) = Ok l
     /\ List.length l = List.length (class_words_of code w)
     /\ forall word, In word (class_words_of code w) -> offered word l)
  /\ (forall st,
        find (fun s => String.eqb (s_code s) code) (students w) = Some st ->
        exists stats,
          fst (get_student_stats clock uuid4 code w) = Ok stats
          /\ st_next_study_words stats = st_total_words stats
          /\ st_words_studied_today stats = 0%nat).
Proof.
  intros Hn.
  assert (Hdoc : forall x p, progress_of code (w_id x) w = Some p ->
                             p_last_studied_date p = None
                             /\ p_box_number p <= 5).
  { intros x p Hp. unfold progress_of in Hp.
    apply find_some in Hp as [Hi Hm].
    apply andb_true_iff in Hm as [Hm _]. apply String.eqb_eq in Hm.
    now apply Hn. }
  assert (Hund : forall v, progress v = progress w ->
            forall x, In x (class_words_of code v) ->
                      has_date code v x = false).
  { intros v Hv x _. unfold has_date, progress_of. rewrite Hv.
    destruct (find _ (progress w)) as [p |] eqn:Hp; [| reflexivity].
    now rewrite (proj1 (Hdoc x p Hp)). }
  assert (Hall : forall v, progress v = progress w ->
            Forall (fun e => e_can_study e = true /\ e_box e <= 5)
                   (entries_of code v)).
  { intros v Hv. apply Forall_forall. intros e He. unfold entries_of in He.
    apply in_map_iff in He as (x & <- & _). cbn. split; [reflexivity |].
    unfold box_in, progress_of. rewrite Hv.
    destruct (find _ (progress w)) as [p |] eqn:Hp; [| lia].
    exact (proj2 (Hdoc x p Hp)). }
  assert (Hlen : forall v, List.length (entries_of code v)
                           = List.length (class_words_of code v))
    by (intros v; unfold entries_of; apply length_map).
  split.
  - exists (arrange (entries_of code w)).
    split; [apply study_list_returns, (Hund w eq_refl) |].
    split; [now rewrite arrange_length, Hlen by now apply Hall |].
    intros word Hin. apply offered_arrange.
    exists (mkStudyEntry word (box_in code w word) true).
    split; [unfold entries_of; apply in_map_iff; now exists word |].
    cbn. repeat split. unfold box_in.
    destruct (progress_of code (w_id word) w) as [p |] eqn:Hp; [| lia].
    exact (proj2 (Hdoc word p Hp)).
  - intros st Hst. rewrite (get_student_stats_known clock uuid4 code w st Hst).
    rewrite (study_list_returns clock uuid4 code (after_reading w))
      by (apply Hund; reflexivity).
    eexists. split; [reflexivity |].
    cbn [st_total_words st_next_study_words st_words_studied_today]. split.
    + rewrite arrange_length, Hlen by (apply Hall; reflexivity).
      reflexivity.
    + assert (E : forall l, never_studied code l ->
                forall f,
                  filter (fun p => String.eqb (p_student_code p) code
                                   && match p_last_studied_date p with
                                      | Some d => f d
                                      | None => false
                                      end) l = []).
      { intros l Hl f. induction l as [| p l IH]; [reflexivity |].
        cbn. destruct (String.eqb_spec (p_student_code p) code) as [Hc | Hc].
        - destruct (Hl p (or_introl eq_refl) Hc) as [Hd _]. rewrite Hd. cbn.
          apply IH. intros q Hq. apply Hl. now right.
        - cbn. apply IH. intros q Hq. apply Hl. now right. }
      now rewrite E.
Qed.

Lemma never_studied_all_offered_witness :
  exists l,
    fst (get_student_words_for_study sample_clock sample_uuid4 "9011"
           mixed_world) = Ok l
    /\ List.length l = 7%nat.
Proof.
  destruct (never_studied_all_offered sample_clock sample_uuid4 "9011"
              mixed_world) as [(l & H1 & H2 & _) _].
  - intros p Hin _. cbn in Hin.
    repeat (destruct Hin as [<- | Hin]; [cbn; split; [reflexivity | lia] |]).
    destruct Hin.
  - exists l. split; [exact H1 | exact H2].
Defined.

(** X11. For a student that exists and whose study list is returned,
    [words_studied_today] is the number of the student's progress documents
    whose last study date falls on the calendar date of the request's clock
    reading or on a later one: a document studied at any hour of today
    counts, one never studied does not. The documents counted belong to
    words outside the student's class, a dated document of a class word
    making the request raise. *)
Theorem stats_studied_today (clock : nat -> datetime)
    (uuid4 : nat -> string) (code : string) (w : World) (st : Student)
    (l : list StudyEntry) :
  find (fun s => String.eqb (s_code s) code) (students w) = Some st ->
  (forall p d, In p (progress w) -> p_last_studied_date p = Some d ->
               time_of_day d) ->
  fst (get_student_words_for_study clock uuid4 code (after_reading w))
  = Ok l ->
  exists stats,
    fst (get_student_stats clock uuid4 code w) = Ok stats
    /\ st_words_studied_today stats
       = count_studied_from code (date_of (clock (ticks w))) (progress w).
Proof.
  intros H Hv Hl. rewrite (get_student_stats_known clock uuid4 code w st H).
  rewrite Hl.
  eexists. split; [reflexivity |]. cbn [st_words_studied_today].
  unfold count_studied_from. f_equal. apply filter_ext_in.
  intros p Hin. destruct (p_last_studied_date p) as [d |] eqn:Hd;
    [| reflexivity].
  now rewrite (dt_ge_midnight d _ (Hv p d Hin Hd)).
Qed.

Lemma stats_studied_today_witness :
  exists stats,
    fst (get_student_stats sample_clock sample_uuid4 "9011"
           other_class_world) = Ok stats
    /\ st_words_studied_today stats = 1%nat.
Proof.
  destruct (stats_studied_today sample_clock sample_uuid4 "9011"
              other_class_world ali
              (arrange (entries_of "9011" (after_reading other_class_world)))
              eq_refl) as (stats & H1 & H2).
  - intros p d [<- | []] Hd. injection Hd as <-.
    unfold time_of_day. cbn. lia.
  - reflexivity.
  - exists stats. split; [exact H1 | exact H2].
Defined.

(** ** The word report *)

Lemma word_status_loop (code : string) (l : list Word) :
  forall acc w,
    for_each l (word_status code) acc w
    = (acc ++ map (status_of code w) l, w).
Proof.
  induction l as [| x l IH]; intros acc w; cbn [for_each map].
  - unfold ret. now rewrite app_nil_r.
  - unfold bind. unfold word_status at 1.
    unfold bind, progress_find_one, ret. rewrite IH.
    now rewrite <- app_assoc.
Qed.

(** X12. For a student that exists, [get_student_words] writes nothing:
    the world is unchanged and no progress document is created. It
    answers with one line per word of the class, a word without a progress
    document showing box 1 and no study date, sorted by increasing box, the
    lines of one box in catalog order. *)
Theorem student_words_report (code : string) (w : World) (st : Student) :
  find (fun s => String.eqb (s_code s) code) (students w) = Some st ->
  exists result,
    get_student_words code w = (Ok result, w)
    /\ Permutation result (map (status_of code w) (class_words_of code w))
    /\ StronglySorted (in_order ws_box false) result
    /\ (forall k,
          filter (fun s => ws_box s =? k) result
          = filter (fun s => ws_box s =? k)
                   (map (status_of code w) (class_words_of code w)))
    /\ (forall word,
          In word (class_words_of code w) ->
          progress_of code (w_id word) w = None ->
          In (mkWordStatus (w_id word) (w_english word)
                (w_turkish_meanings word) 1 None) result).
Proof.
  intros H.
  exists (list_sort ws_box false
            (map (status_of code w) (class_words_of code w))).
  split; [| split; [| split; [| split]]].
  - unfold get_student_words, bind, students_find_one, words_find_class,
      class_words_of.
    rewrite H, word_status_loop. reflexivity.
  - apply list_sort_perm.
  - apply list_sort_sorted.
  - intros k. apply list_sort_stable.
  - intros word Hin Hp. apply list_sort_in, in_map_iff.
    exists word. split; [| exact Hin]. unfold status_of. now rewrite Hp.
Qed.

Lemma student_words_report_witness :
  exists result,
    get_student_words "9011" mixed_world = (Ok result, mixed_world)
    /\ In (mkWordStatus "g" "g" ["x"] 1 None) result.
Proof.
  destruct (student_words_report "9011" mixed_world ali eq_refl)
    as (result & H1 & _ & _ & _ & H2).
  exists result. split; [exact H1 |].
  apply (H2 (catalog_word "g")); [| reflexivity].
  cbn. tauto.
Defined.

(** ** The import of students *)

Lemma for_each_app {A B : Type} (l1 l2 : list A) (body : A -> B -> M B) :
  forall acc w,
    for_each (l1 ++ l2) body acc w
    = for_each l2 body (fst (for_each l1 body acc w))
                       (snd (for_each l1 body acc w)).
Proof.
  induction l1 as [| x l1 IH]; intros acc w; [reflexivity |].
  cbn [app]. now rewrite !for_each_cons, IH.
Qed.

Lemma set_student_codes (c n cl : string) (l : list Student) :
  map s_code (set_student c n cl l) = map s_code l.
Proof.
  induction l as [| s l IH]; cbn; [reflexivity |].
  destruct (String.eqb (s_code s) c); cbn; [reflexivity | now rewrite IH].
Qed.

Lemma find_student_none (c : string) (l : list Student) :
  find (fun s => String.eqb (s_code s) c) l = None -> ~ In c (map s_code l).
Proof.
  induction l as [| s l IH]; cbn; [tauto |].
  destruct (String.eqb_spec (s_code s) c); [discriminate |].
  intros H [E | Hin]; [contradiction | now apply IH].
Qed.

Lemma find_set_student_same (c n cl : string) (l : list Student)
    (s0 : Student) :
  find (fun s => String.eqb (s_code s) c) l = Some s0 ->
  find (fun s => String.eqb (s_code s) c) (set_student c n cl l)
  = Some (mkStudent (s_id s0) c n cl (s_created_at s0)).
Proof.
  induction l as [| s l IH]; cbn; [discriminate |].
  destruct (String.eqb_spec (s_code s) c) as [E | E]; cbn.
  - intros H. injection H as <-. rewrite E, String.eqb_refl. reflexivity.
  - intros H. destruct (String.eqb_spec (s_code s) c); [contradiction |].
    now apply IH.
Qed.

Lemma find_set_student_other (c c' n cl : string) (l : list Student) :
  c' <> c ->
  find (fun s => String.eqb (s_code s) c) (set_student c' n cl l)
  = find (fun s => String.eqb (s_code s) c) l.
Proof.
  intros Hc. induction l as [| s l IH]; cbn; [reflexivity |].
  destruct (String.eqb_spec (s_code s) c') as [E | E]; cbn.
  - destruct (String.eqb_spec (s_code s) c); [congruence | reflexivity].
  - now rewrite IH.
Qed.

Lemma three_columns_strip (row : list string) :
  three_columns row = true
  <-> exists c n cl, map PyStr.strip row = [c; n; cl].
Proof.
  unfold three_columns.
  destruct row as [| a [| b [| c [| d r]]]]; cbn; split;
    try discriminate; try (intros (? & ? & ? & ?); discriminate).
  - intros _. now eexists _, _, _.
  - reflexivity.
Qed.

Section ImportStudents.
Variable clock : nat -> datetime.
Variable uuid4 : nat -> string.

Lemma upload_students_row_skip (row : list string) (counts : nat * nat)
    (w : World) :
  three_columns row = false ->
  upload_students_row clock uuid4 row counts w = (counts, w).
Proof.
  unfold three_columns.
  destruct row as [| a [| b [| c [| d r]]]]; cbn; try reflexivity.
  discriminate.
Qed.

Lemma upload_students_row_update (row : list string) (counts : nat * nat)
    (w : World) (c n cl : string) (s0 : Student) :
  map PyStr.strip row = [c; n; cl] ->
  find (fun s => String.eqb (s_code s) c) (students w) = Some s0 ->
  upload_students_row clock uuid4 row counts w
  = ((fst counts, S (snd counts)),
     mkWorld (set_student c n cl (students w)) (words w) (progress w)
             (ticks w) (draws w)).
Proof.
  intros Hr Hf. unfold upload_students_row. rewrite Hr.
  unfold bind, students_find_one, students_update_one, ret.
  now rewrite Hf.
Qed.

Lemma upload_students_row_insert (row : list string) (counts : nat * nat)
    (w : World) (c n cl : string) :
  map PyStr.strip row = [c; n; cl] ->
  find (fun s => String.eqb (s_code s) c) (students w) = None ->
  upload_students_row clock uuid4 row counts w
  = ((S (fst counts), snd counts),
     mkWorld (students w
              ++ [mkStudent (uuid4 (draws w)) c n cl (clock (ticks w))])
             (words w) (progress w) (S (ticks w)) (S (draws w))).
Proof.
  intros Hr Hf. unfold upload_students_row. rewrite Hr.
  unfold bind, students_find_one, new_Student, new_uuid, now,
    students_insert_one, ret.
  now rewrite Hf.
Qed.

(** The three outcomes of a row, as one case analysis. *)
Lemma upload_students_row_cases (row : list string) (counts : nat * nat)
    (w : World) :
  (three_columns row = false
   /\ upload_students_row clock uuid4 row counts w = (counts, w))
  \/ (exists c n cl s0,
        three_columns row = true
        /\ map PyStr.strip row = [c; n; cl]
        /\ find (fun s => String.eqb (s_code s) c) (students w) = Some s0
        /\ upload_students_row clock uuid4 row counts w
           = ((fst counts, S (snd counts)),
              mkWorld (set_student c n cl (students w)) (words w)
                      (progress w) (ticks w) (draws w)))
  \/ (exists c n cl,
        three_columns row = true
        /\ map PyStr.strip row = [c; n; cl]
        /\ find (fun s => String.eqb (s_code s) c) (students w) = None
        /\ upload_students_row clock uuid4 row counts w
           = ((S (fst counts), snd counts),
              mkWorld (students w
                       ++ [mkStudent (uuid4 (draws w)) c n cl
                             (clock (ticks w))])
                      (words w) (progress w) (S (ticks w)) (S (draws w)))).
Proof.
  destruct (three_columns row) eqn:H3.
  - right. apply three_columns_strip in H3 as (c & n & cl & Hr).
    destruct (find (fun s => String.eqb (s_code s) c) (students w))
      as [s0 |] eqn:Hf.
    + left. exists c, n, cl, s0. repeat split; trivial.
      now apply upload_students_row_update with (s0 := s0).
    + right. exists c, n, cl. repeat split; trivial.
      now apply upload_students_row_insert.
  - left. split; [reflexivity |]. now apply upload_students_row_skip.
Qed.

Lemma set_student_length (c n cl : string) (l : list Student) :
  List.length (set_student c n cl l) = List.length l.
Proof.
  rewrite <- (length_map s_code), set_student_codes. apply length_map.
Qed.

Lemma upload_students_loop_counts (rows : list (list string)) :
  forall counts w,
    let r := for_each rows (upload_students_row clock uuid4) counts w in
    (fst (fst r) + snd (fst r)
     = fst counts + snd counts + List.length (filter three_columns rows))%nat
    /\ (List.length (students (snd r)) + fst counts
        = List.length (students w) + fst (fst r))%nat
    /\ words (snd r) = words w.
Proof.
  induction rows as [| row rows IH]; intros counts w; cbn zeta.
  - cbn. repeat split; lia.
  - rewrite for_each_cons. cbn [filter].
    destruct (upload_students_row_cases row counts w)
      as [[H3 E] | [(c & n & cl & s0 & H3 & _ & _ & E)
                   | (c & n & cl & H3 & _ & _ & E)]];
      rewrite E, H3; cbn [fst snd];
      match goal with
      | |- context [for_each rows _ ?a ?v] =>
          destruct (IH a v) as (H1 & H2 & H4)
      end;
      cbn [fst snd students words List.length] in *.
    + repeat split; trivial.
    + rewrite set_student_length in H2. repeat split; trivial; lia.
    + rewrite length_app in H2. cbn in H2. repeat split; trivial; lia.
Qed.

Lemma upload_students_loop_unique (rows : list (list string)) :
  forall counts w,
    unique_codes (students w) ->
    unique_codes
      (students (snd (for_each rows (upload_students_row clock uuid4)
                        counts w))).
Proof.
  unfold unique_codes.
  induction rows as [| row rows IH]; intros counts w Hw; [exact Hw |].
  rewrite for_each_cons.
  destruct (upload_students_row_cases row counts w)
    as [[H3 E] | [(c & n & cl & s0 & H3 & _ & Hf & E)
                 | (c & n & cl & H3 & _ & Hf & E)]];
    rewrite E; cbn [fst snd]; apply IH; cbn [students]; trivial.
  - now rewrite set_student_codes.
  - rewrite map_app. cbn. apply nodup_snoc; [exact Hw |].
    now apply find_student_none.
Qed.

Lemma upload_students_loop_keeps (c : string) (s : Student)
    (rows : list (list string)) :
  (forall row c' n' cl',
     In row rows -> map PyStr.strip row = [c'; n'; cl'] -> c' <> c) ->
  forall counts w,
    find (fun x => String.eqb (s_code x) c) (students w) = Some s ->
    find (fun x => String.eqb (s_code x) c)
         (students (snd (for_each rows (upload_students_row clock uuid4)
                           counts w))) = Some s.
Proof.
  induction rows as [| row rows IH]; intros Hrows counts w Hw; [exact Hw |].
  rewrite for_each_cons.
  assert (Hrest : forall row c' n' cl',
             In row rows -> map PyStr.strip row = [c'; n'; cl'] -> c' <> c).
  { intros r c' n' cl' Hin. apply Hrows. now right. }
  destruct (upload_students_row_cases row counts w)
    as [[H3 E] | [(c' & n & cl & s0 & H3 & Hr & Hf & E)
                 | (c' & n & cl & H3 & Hr & Hf & E)]];
    rewrite E; cbn [fst snd]; apply IH; cbn [students]; trivial.
  - rewrite find_set_student_other; [exact Hw |].
    exact (Hrows row c' n cl (or_introl eq_refl) Hr).
  - now apply find_app_some.
Qed.
End ImportStudents.

(** X13. [upload_students] refuses a file whose name does not end in .csv
    with status 400 and leaves the database alone. Otherwise it succeeds,
    skips every row that has not exactly three columns, counts each
    remaining row once, as added or as updated, grows the collection by
    exactly the number added, and touches neither words nor progress. *)
Theorem upload_students_counts (clock : nat -> datetime)
    (uuid4 : nat -> string) (filename : string) (rows : list (list string))
    (w : World) :
  (PyStr.endswith filename ".csv" = false ->
   upload_students clock uuid4 filename rows w
   = (HTTPException 400 "File must be CSV format", w))
  /\ (PyStr.endswith filename ".csv" = true ->
      let w' := snd (upload_students clock uuid4 filename rows w) in
      exists added updated,
        fst (upload_students clock uuid4 filename rows w)
        = Ok (added, updated)
        /\ (added + updated = List.length (filter three_columns rows))%nat
        /\ List.length (students w')
           = (List.length (students w) + added)%nat
        /\ words w' = words w /\ progress w' = progress w).
Proof.
  split; intros Hf.
  - unfold upload_students. now rewrite Hf.
  - intros w'. pose proof (upload_students_world clock uuid4 filename rows w)
      as Hp. fold w' in Hp. subst w'.
    unfold upload_students in *. rewrite Hf in *. cbn [negb] in *.
    unfold bind, ret in *.
    destruct (upload_students_loop_counts clock uuid4 rows (0%nat, 0%nat) w)
      as (H1 & H2 & H3).
    cbn zeta in H1, H2, H3.
    destruct (for_each rows (upload_students_row clock uuid4) (0%nat, 0%nat) w)
      as [[added updated] w'].
    cbn [fst snd] in *. exists added, updated.
    repeat split; trivial; lia.
Qed.

Lemma upload_students_counts_witness :
  exists added updated,
    fst (upload_students sample_clock sample_uuid4 "students.csv"
           [["9011"; " Ali A. "; "6B"]; ["9012"; "Veli"]; ["9013"; "Can"; "5A"]]
           sample_world) = Ok (added, updated)
    /\ (added + updated = 2)%nat.
Proof.
  destruct (proj2 (upload_students_counts sample_clock sample_uuid4
                     "students.csv"
                     [["9011"; " Ali A. "; "6B"]; ["9012"; "Veli"];
                      ["9013"; "Can"; "5A"]] sample_world) eq_refl)
    as (added & updated & H1 & H2 & _).
  exists added, updated. split; [exact H1 | exact H2].
Defined.

(** X14. [upload_students] keeps student codes unique: from a collection in
    which no two students share a code it never makes one in which two do,
    whatever the rows, repeated codes included. *)
Theorem upload_students_unique (clock : nat -> datetime)
    (uuid4 : nat -> string) (filename : string) (rows : list (list string))
    (w : World) :
  unique_codes (students w) ->
  unique_codes (students (snd (upload_students clock uuid4 filename rows w))).
Proof.
  intros Hw. unfold upload_students.
  destruct (PyStr.endswith filename ".csv"); cbn [negb]; [| exact Hw].
  unfold bind, ret.
  pose proof (upload_students_loop_unique clock uuid4 rows (0%nat, 0%nat) w Hw)
    as H.
  now destruct (for_each rows (upload_students_row clock uuid4) _ w).
Qed.

Lemma upload_students_unique_witness :
  unique_codes
    (students
       (snd (upload_students sample_clock sample_uuid4 "students.csv"
               [["9012"; "Veli"; "5A"]; ["9012"; "Veli K."; "5B"];
                ["9011"; "Ali"; "6A"]] sample_world))).
Proof.
  apply (upload_students_unique sample_clock sample_uuid4 "students.csv" _
           sample_world).
  unfold unique_codes. cbn. constructor; [cbn; tauto | constructor].
Defined.

(** X15. After an import of students, the last three-column row of a code
    decides what [student_login] answers for that code: the stripped code,
    name and class level of that row, whether the student was inserted or
    updated and whatever the earlier rows held. *)
Theorem upload_students_then_login (clock : nat -> datetime)
    (uuid4 : nat -> string) (filename : string)
    (before after : list (list string)) (row : list string)
    (c n cl : string) (w : World) :
  PyStr.endswith filename ".csv" = true ->
  map PyStr.strip row = [c; n; cl] ->
  (forall r c' n' cl',
     In r after -> map PyStr.strip r = [c'; n'; cl'] -> c' <> c) ->
  fst (student_login c
         (snd (upload_students clock uuid4 filename (before ++ row :: after)
                 w)))
  = Ok (mkStudentSummary c n cl).
Proof.
  intros Hf Hr Hafter.
  assert (H : exists s,
             find (fun x => String.eqb (s_code x) c)
                  (students (snd (upload_students clock uuid4 filename
                                    (before ++ row :: after) w))) = Some s
             /\ s_code s = c /\ s_name s = n /\ s_class_level s = cl).
  { unfold upload_students. rewrite Hf. cbn [negb]. unfold bind, ret.
    match goal with
    | |- context [for_each ?l ?b ?a ?v] =>
        assert (E : snd (let (counts, w') := for_each l b a v in
                         (Ok counts, w'))
                    = snd (for_each l b a v))
          by now destruct (for_each l b a v)
    end.
    rewrite E, for_each_app, for_each_cons.
    set (v := snd (for_each before _ _ w)).
    set (k := fst (for_each before _ _ w)).
    destruct (find (fun x => String.eqb (s_code x) c) (students v))
      as [s0 |] eqn:Hs0.
    - rewrite (upload_students_row_update clock uuid4 row k v c n cl s0 Hr Hs0).
      cbn [fst snd]. eexists. split.
      + apply upload_students_loop_keeps; [exact Hafter |].
        cbn [students]. exact (find_set_student_same c n cl _ s0 Hs0).
      + now repeat split.
    - rewrite (upload_students_row_insert clock uuid4 row k v c n cl Hr Hs0).
      cbn [fst snd]. eexists. split.
      + apply upload_students_loop_keeps; [exact Hafter |].
        cbn [students]. rewrite find_app_none by exact Hs0.
        cbn. rewrite String.eqb_refl. reflexivity.
      + now repeat split. }
  destruct H as (s & Hs & Hc & Hn & Hcl).
  unfold student_login, bind, students_find_one, ret. rewrite Hs.
  cbn [fst]. now rewrite Hc, Hn, Hcl.
Qed.

Lemma upload_students_then_login_witness :
  fst (student_login "9011"
         (snd (upload_students sample_clock sample_uuid4 "students.csv"
                 ([["9011"; "Ali"; "5B"]]
                  ++ [" 9011"; " Ali A. "; "6B"] :: [["9013"; "Can"; "5A"]])
                 sample_world)))
  = Ok (mkStudentSummary "9011" "Ali A." "6B").
Proof.
  apply (upload_students_then_login sample_clock sample_uuid4 "students.csv"
           [["9011"; "Ali"; "5B"]] [["9013"; "Can"; "5A"]]
           [" 9011"; " Ali A. "; "6B"] "9011" "Ali A." "6B" sample_world
           eq_refl eq_refl).
  intros r c' n' cl' [<- | []] E. cbn in E. injection E as <- _ _.
  discriminate.
Defined.

(** ** The import of words *)

Section ImportWords.
Variable clock : nat -> datetime.
Variable uuid4 : nat -> string.

Lemma upload_words_row_skip (row : list string) (n : nat) (w : World) :
  three_columns row = false ->
  upload_words_row clock uuid4 row n w = (n, w).
Proof.
  unfold three_columns.
  destruct row as [| a [| b [| c [| d r]]]]; cbn; try reflexivity.
  discriminate.
Qed.

(** The outcomes of a row, as one case analysis. *)
Lemma upload_words_row_cases (row : list string) (n : nat) (w : World) :
  upload_words_row clock uuid4 row n w = (n, w)
  \/ (exists c e t,
        three_columns row = true
        /\ map PyStr.strip row = [c; e; t]
        /\ find (fun x => String.eqb (w_class_level x) c
                          && String.eqb (w_english x) (PyStr.lower e))
                (words w) = None
        /\ upload_words_row clock uuid4 row n w
           = (S n,
              mkWorld (students w)
                (words w ++ [mkWord (uuid4 (draws w)) c e (split_meanings t)
                               (clock (ticks w))])
                (progress w) (S (ticks w)) (S (draws w)))).
Proof.
  destruct (three_columns row) eqn:H3.
  - apply three_columns_strip in H3 as (c & e & t & Hr).
    destruct (find (fun x => String.eqb (w_class_level x) c
                             && String.eqb (w_english x) (PyStr.lower e))
                   (words w)) as [x |] eqn:Hf.
    + left. exact (upload_words_row_existing clock uuid4 row n w c e t x Hr Hf).
    + right. exists c, e, t. repeat split; trivial.
      exact (upload_words_row_new clock uuid4 row n w c e t Hr Hf).
  - left. now apply upload_words_row_skip.
Qed.

Lemma upload_words_loop (rows : list (list string)) :
  forall n w,
    let r := for_each rows (upload_words_row clock uuid4) n w in
    students (snd r) = students w
    /\ exists new,
         words (snd r) = words w ++ new
         /\ fst r = (n + List.length new)%nat
         /\ (List.length new <= List.length (filter three_columns rows))%nat
         /\ Forall (fun x =>
                      exists row c e t,
                        In row rows
                        /\ map PyStr.strip row = [c; e; t]
                        /\ w_class_level x = c /\ w_english x = e
                        /\ w_turkish_meanings x = split_meanings t) new.
Proof.
  induction rows as [| row rows IH]; intros n w; cbn zeta.
  - cbn. split; [reflexivity |]. exists []. rewrite app_nil_r.
    repeat split; trivial; lia.
  - rewrite for_each_cons.
    destruct (upload_words_row_cases row n w)
      as [E | (c & e & t & H3 & Hr & Hf & E)]; rewrite E; cbn [fst snd].
    + destruct (IH n w) as (Hs & new & Hw & Hn & Hl & Hall).
      split; [exact Hs |]. exists new. repeat split; trivial.
      * cbn [filter]. destruct (three_columns row); cbn; lia.
      * revert Hall. apply Forall_impl.
        intros x (r & c & e & t & Hin & Hx). exists r, c, e, t.
        split; [now right | exact Hx].
    + match goal with
      | |- context [for_each rows _ ?a ?v] =>
          destruct (IH a v) as (Hs & new & Hw & Hn & Hl & Hall)
      end.
      cbn [students words] in Hs, Hw.
      split; [exact Hs |]. eexists (_ :: new).
      split; [rewrite Hw, <- app_assoc; reflexivity |].
      split; [rewrite Hn; cbn; lia |].
      split; [cbn [filter]; rewrite H3; cbn; lia |].
      constructor.
      * exists row, c, e, t. repeat split; trivial. now left.
      * revert Hall. apply Forall_impl.
        intros x (r & c' & e' & t' & Hin & Hx). exists r, c', e', t'.
        split; [now right | exact Hx].
Qed.

Lemma lower_case_entries_snoc (l : list Word) (x : Word) :
  lower_case_entries (l ++ [x])
  = lower_case_entries l
    ++ (if String.eqb (PyStr.lower (w_english x)) (w_english x)
        then [(w_class_level x, w_english x)] else []).
Proof.
  unfold lower_case_entries. rewrite filter_app, map_app. cbn.
  now destruct (String.eqb (PyStr.lower (w_english x)) (w_english x)).
Qed.

Lemma upload_words_loop_unique (rows : list (list string)) :
  forall n w,
    NoDup (lower_case_entries (words w)) ->
    NoDup (lower_case_entries
             (words (snd (for_each rows (upload_words_row clock uuid4) n w)))).
Proof.
  induction rows as [| row rows IH]; intros n w Hw; [exact Hw |].
  rewrite for_each_cons.
  destruct (upload_words_row_cases row n w)
    as [E | (c & e & t & H3 & Hr & Hf & E)]; rewrite E; cbn [fst snd];
    apply IH; [exact Hw |].
  cbn [words]. rewrite lower_case_entries_snoc. cbn [w_english w_class_level].
  destruct (String.eqb_spec (PyStr.lower e) e) as [He | He];
    [| now rewrite app_nil_r].
  apply nodup_snoc; [exact Hw |].
  unfold lower_case_entries. intros Hin.
  apply in_map_iff in Hin as (y & Hy & Hin).
  apply filter_In in Hin as [Hin _]. injection Hy as Hc He'.
  apply (find_none _ _ Hf) in Hin.
  rewrite Hc, He', He, !String.eqb_refl in Hin. discriminate.
Qed.
End ImportWords.

(** X16. [upload_words] refuses a file whose name does not end in .csv with
    status 400 and leaves the database alone. Otherwise it succeeds and only
    appends to the catalog: every word that was there stays as it was, the
    reported count is the number of words appended, at most one per
    three-column row, every appended word carries the stripped class level
    and english of such a row and the stripped pieces of its third column,
    and students and progress are untouched. *)
Theorem upload_words_appends (clock : nat -> datetime)
    (uuid4 : nat -> string) (filename : string) (rows : list (list string))
    (w : World) :
  (PyStr.endswith filename ".csv" = false ->
   upload_words clock uuid4 filename rows w
   = (HTTPException 400 "File must be CSV format", w))
  /\ (PyStr.endswith filename ".csv" = true ->
      let w' := snd (upload_words clock uuid4 filename rows w) in
      exists new,
        fst (upload_words clock uuid4 filename rows w)
        = Ok (List.length new)
        /\ words w' = words w ++ new
        /\ (List.length new <= List.length (filter three_columns rows))%nat
        /\ Forall (fun x =>
                     exists row c e t,
                       In row rows
                       /\ map PyStr.strip row = [c; e; t]
                       /\ w_class_level x = c /\ w_english x = e
                       /\ w_turkish_meanings x = split_meanings t) new
        /\ students w' = students w /\ progress w' = progress w).
Proof.
  split; intros Hf.
  - unfold upload_words. now rewrite Hf.
  - intros w'. pose proof (upload_words_world clock uuid4 filename rows w)
      as Hp. fold w' in Hp. subst w'.
    unfold upload_words in *. rewrite Hf in *. cbn [negb] in *.
    unfold bind, ret in *.
    destruct (upload_words_loop clock uuid4 rows 0%nat w)
      as (Hs & new & Hw & Hn & Hl & Hall).
    destruct (for_each rows (upload_words_row clock uuid4) 0%nat w)
      as [added w'].
    cbn [fst snd] in *. exists new. subst added.
    repeat split; trivial.
Qed.

Lemma upload_words_appends_witness :
  exists new,
    fst (import_words [capital_row; ["5A"; "x"]; capital_row] sample_world)
    = Ok (List.length new)
    /\ words (snd (import_words [capital_row; ["5A"; "x"]; capital_row]
                     sample_world)) = hello :: new.
Proof.
  destruct (proj2 (upload_words_appends sample_clock sample_uuid4 "words.csv"
                     [capital_row; ["5A"; "x"]; capital_row] sample_world)
              eq_refl) as (new & H1 & H2 & _).
  exists new. split; [exact H1 | exact H2].
Defined.

(** X17. Among the words whose english is written in lower case,
    [upload_words] keeps the pair of class level and english unique: a
    catalog without such a duplicate never gets one, whatever the rows. *)
Theorem upload_words_lower_case_unique (clock : nat -> datetime)
    (uuid4 : nat -> string) (filename : string) (rows : list (list string))
    (w : World) :
  NoDup (lower_case_entries (words w)) ->
  NoDup (lower_case_entries
           (words (snd (upload_words clock uuid4 filename rows w)))).
Proof.
  intros Hw. unfold upload_words.
  destruct (PyStr.endswith filename ".csv"); cbn [negb]; [| exact Hw].
  unfold bind, ret.
  pose proof (upload_words_loop_unique clock uuid4 rows 0%nat w Hw) as H.
  now destruct (for_each rows (upload_words_row clock uuid4) _ w).
Qed.

Lemma upload_words_lower_case_unique_witness :
  NoDup (lower_case_entries
           (words (snd (import_words
                          [["5A"; "hello"; "selam"]; ["5A"; "book"; "kitap"];
                           ["5A"; " book "; "defter"]] sample_world)))).
Proof.
  apply (upload_words_lower_case_unique sample_clock sample_uuid4 "words.csv"
           _ sample_world).
  cbn. constructor; [cbn; tauto | constructor].
Defined.

(** ** Answers and meanings as strings *)

Lemma lower_char_idem (c : ascii) :
  PyStr.lower_char (PyStr.lower_char c) = PyStr.lower_char c.
Proof. destruct c as [[] [] [] [] [] [] [] []]; reflexivity. Qed.

Lemma isspace_lower_char (c : ascii) :
  PyStr.isspace (PyStr.lower_char c) = PyStr.isspace c.
Proof. destruct c as [[] [] [] [] [] [] [] []]; reflexivity. Qed.

Lemma lower_idem (s : string) : PyStr.lower (PyStr.lower s) = PyStr.lower s.
Proof.
  induction s as [| c s IH]; cbn; [reflexivity |].
  now rewrite lower_char_idem, IH.
Qed.

Lemma lstrip_lower (s : string) :
  PyStr.lstrip (PyStr.lower s) = PyStr.lower (PyStr.lstrip s).
Proof.
  induction s as [| c s IH]; cbn; [reflexivity |].
  rewrite isspace_lower_char. now destruct (PyStr.isspace c).
Qed.

Lemma rstrip_lower (s : string) :
  PyStr.rstrip (PyStr.lower s) = PyStr.lower (PyStr.rstrip s).
Proof.
  induction s as [| c s IH]; cbn; [reflexivity |].
  rewrite IH, isspace_lower_char.
  destruct (PyStr.rstrip s); cbn; [now destruct (PyStr.isspace c) |].
  reflexivity.
Qed.

Lemma strip_lower (s : string) :
  PyStr.strip (PyStr.lower s) = PyStr.lower (PyStr.strip s).
Proof. unfold PyStr.strip. now rewrite lstrip_lower, rstrip_lower. Qed.

Lemma lstrip_blank (p s : string) :
  blank p = true -> PyStr.lstrip (p ++ s) = PyStr.lstrip s.
Proof.
  induction p as [| c p IH]; cbn; [reflexivity |].
  intros H. apply andb_true_iff in H as [Hc Hp]. rewrite Hc. now apply IH.
Qed.

Lemma rstrip_blank (p : string) : blank p = true -> PyStr.rstrip p = "".
Proof.
  induction p as [| c p IH]; cbn; [reflexivity |].
  intros H. apply andb_true_iff in H as [Hc Hp]. now rewrite IH, Hc.
Qed.

Lemma rstrip_app_blank (s p : string) :
  blank p = true -> PyStr.rstrip (s ++ p) = PyStr.rstrip s.
Proof.
  intros Hp. induction s as [| c s IH]; cbn.
  - now apply rstrip_blank.
  - now rewrite IH.
Qed.

Lemma lstrip_blank_only (p : string) :
  blank p = true -> PyStr.lstrip p = "".
Proof.
  induction p as [| c p IH]; cbn; [reflexivity |].
  intros H. apply andb_true_iff in H as [Hc Hp]. rewrite Hc. now apply IH.
Qed.

Lemma strip_app_blank (s p : string) :
  blank p = true -> PyStr.strip (s ++ p) = PyStr.strip s.
Proof.
  intros Hp. unfold PyStr.strip. induction s as [| c s IH].
  - cbn. now rewrite (lstrip_blank_only p Hp).
  - cbn [String.append PyStr.lstrip].
    destruct (PyStr.isspace c); [exact IH |].
    change (String c (s ++ p)) with (String c s ++ p)%string.
    now apply rstrip_app_blank.
Qed.

Lemma strip_padded (p1 p2 a : string) :
  blank p1 = true -> blank p2 = true ->
  PyStr.strip (p1 ++ a ++ p2) = PyStr.strip a.
Proof.
  intros H1 H2. unfold PyStr.strip at 1. rewrite (lstrip_blank p1 _ H1).
  fold (PyStr.strip (a ++ p2)). now apply strip_app_blank.
Qed.

Lemma rstrip_cons (c : ascii) (s : string) :
  PyStr.rstrip (String c s)
  = match PyStr.rstrip s with
    | EmptyString =>
        if PyStr.isspace c then EmptyString else String c EmptyString
    | String d r => String c (String d r)
    end.
Proof. reflexivity. Qed.

Lemma rstrip_idem (s : string) :
  PyStr.rstrip (PyStr.rstrip s) = PyStr.rstrip s.
Proof.
  induction s as [| c s IH]; [reflexivity |].
  rewrite (rstrip_cons c s).
  destruct (PyStr.rstrip s) as [| d r] eqn:E.
  - destruct (PyStr.isspace c) eqn:Hc; [reflexivity |].
    rewrite rstrip_cons. cbn [PyStr.rstrip]. now rewrite Hc.
  - rewrite (rstrip_cons c (String d r)), IH. reflexivity.
Qed.

Lemma rstrip_head (c : ascii) (s : string) :
  PyStr.isspace c = false ->
  exists r, PyStr.rstrip (String c s) = String c r.
Proof.
  intros Hc. cbn. rewrite Hc. destruct (PyStr.rstrip s); now eexists.
Qed.

Lemma strip_idem (s : string) : PyStr.strip (PyStr.strip s) = PyStr.strip s.
Proof.
  unfold PyStr.strip.
  assert (H : PyStr.lstrip s = ""
              \/ exists c r, PyStr.lstrip s = String c r
                             /\ PyStr.isspace c = false).
  { induction s as [| c s IH]; cbn; [now left |].
    destruct (PyStr.isspace c) eqn:Hc; [exact IH |].
    right. now exists c, s. }
  destruct H as [E | (c & r & E & Hc)]; rewrite E; [reflexivity |].
  destruct (rstrip_head c r Hc) as [r' Er]. rewrite Er.
  cbn [PyStr.lstrip]. rewrite Hc, <- Er. apply rstrip_idem.
Qed.

Lemma split_without_separator (sep : ascii) (s : string) :
  has_char sep s = false -> PyStr.split sep s = [s].
Proof.
  induction s as [| c s IH]; cbn; [reflexivity |].
  intros H. apply orb_false_iff in H as [Hc Hs]. rewrite Hc.
  now rewrite (IH Hs).
Qed.

Lemma split_at_separator (sep : ascii) (s r : string) :
  has_char sep s = false ->
  PyStr.split sep (s ++ String sep r) = s :: PyStr.split sep r.
Proof.
  induction s as [| c s IH]; cbn.
  - intros _. now rewrite Ascii.eqb_refl.
  - intros H. apply orb_false_iff in H as [Hc Hs]. rewrite Hc.
    now rewrite (IH Hs).
Qed.

Lemma split_concat (sep : ascii) (ms : list string) :
  ms <> [] ->
  Forall (fun m => has_char sep m = false) ms ->
  PyStr.split sep (String.concat (String sep "") ms) = ms.
Proof.
  intros Hne Hall. induction Hall as [| m ms Hm Hall IH]; [contradiction |].
  destruct ms as [| m' ms].
  - cbn. now apply split_without_separator.
  - cbn [String.concat]. cbn [String.append].
    rewrite (split_at_separator sep m _ Hm). f_equal.
    apply IH. discriminate.
Qed.

(** X18. [submit_answer]'s test of an answer does not see whitespace around
    the answer, nor the case of the answer, nor the case of the stored
    meanings: padding the answer with whitespace, lowering it, or lowering
    every meaning leaves the verdict unchanged. *)
Theorem answer_normalisation (meanings : list string)
    (answer before after : string) :
  blank before = true -> blank after = true ->
  check_answer meanings (before ++ answer ++ after)
  = check_answer meanings answer
  /\ check_answer meanings (PyStr.lower answer)
     = check_answer meanings answer
  /\ check_answer (map PyStr.lower meanings) answer
     = check_answer meanings answer.
Proof.
  intros Hb Ha. unfold check_answer. split; [| split].
  - now rewrite strip_padded.
  - now rewrite strip_lower, lower_idem.
  - induction meanings as [| m ms IH]; cbn; [reflexivity |].
    now rewrite IH, strip_lower, lower_idem.
Qed.

Lemma answer_normalisation_witness :
  check_answer ["Merhaba"; "selam"] ("  " ++ "SELAM" ++ " ")
  = check_answer ["Merhaba"; "selam"] "SELAM".
Proof.
  exact (proj1 (answer_normalisation ["Merhaba"; "selam"] "SELAM" "  " " "
                  eq_refl eq_refl)).
Defined.

(** X19. A third column made of meanings joined by semicolons, none of
    which holds a semicolon, is read back by the import as exactly those
    meanings, each stripped of the whitespace around it. *)
Theorem split_meanings_round_trip (meanings : list string) :
  meanings <> [] ->
  Forall (fun m => has_char ";" m = false) meanings ->
  split_meanings (String.concat ";" meanings) = map PyStr.strip meanings.
Proof.
  intros Hne Hall. unfold split_meanings. now rewrite split_concat.
Qed.

Lemma split_meanings_round_trip_witness :
  split_meanings (String.concat ";" ["merhaba"; " selam "])
  = ["merhaba"; "selam"].
Proof.
  apply (split_meanings_round_trip ["merhaba"; " selam "]).
  - discriminate.
  - repeat constructor.
Defined.

(** X20. Whatever the third column holds, the meanings the import stores
    for it are at least one, carry no whitespace at either end, and each of
    them, given back as the answer, is judged correct. *)
Theorem split_meanings_normal (turkish : string) :
  split_meanings turkish <> []
  /\ Forall (fun m => PyStr.strip m = m
                      /\ check_answer (split_meanings turkish) m = true)
            (split_meanings turkish).
Proof.
  split.
  - unfold split_meanings.
    destruct turkish as [| c t]; cbn; [discriminate |].
    destruct (Ascii.eqb c ";"); [discriminate |].
    destruct (PyStr.split ";" t); discriminate.
  - apply Forall_forall. intros m Hin. split.
    + unfold split_meanings in Hin.
      apply in_map_iff in Hin as (x & <- & _). apply strip_idem.
    + apply check_answer_spec. now exists m.
Qed.

(** ** The study list as a whole *)

Lemma filters_apart {A B : Type} (h : A -> B) (f g : A -> bool)
    (l : list A) :
  (forall x, f x && g x = false) ->
  (List.length (filter f l ++ filter g l) <= List.length l)%nat
  /\ (NoDup (map h l) -> NoDup (map h (filter f l ++ filter g l))).
Proof.
  intros Hfg. induction l as [| x l [IHl IHn]]; cbn.
  - split; [lia | trivial].
  - assert (Hsub : forall y, In y (map h (filter f l ++ filter g l)) ->
                             In y (map h l)).
    { intros y Hy. apply in_map_iff in Hy as (z & <- & Hz).
      apply in_map. apply in_app_iff in Hz as [Hz | Hz];
        now apply filter_In in Hz. }
    specialize (Hfg x).
    destruct (f x) eqn:Hf; destruct (g x) eqn:Hg;
      try (cbn in Hfg; discriminate Hfg); cbn.
    + split; [lia |]. intros Hn. apply NoDup_cons_iff in Hn as [Hx Hn].
      constructor; [| now apply IHn]. intros Hy. now apply Hx, Hsub.
    + rewrite length_app in *. cbn. split; [lia |].
      intros Hn. apply NoDup_cons_iff in Hn as [Hx Hn].
      rewrite map_app. cbn.
      eapply Permutation_NoDup; [apply Permutation_middle |].
      rewrite <- map_app. constructor; [| now apply IHn].
      intros Hy. now apply Hx, Hsub.
    + split; [lia |]. intros Hn. apply NoDup_cons_iff in Hn as [_ Hn].
      now apply IHn.
Qed.

Lemma arrange_apart (l : list StudyEntry) :
  (List.length (arrange l) <= List.length l)%nat
  /\ (NoDup (map e_word l) -> NoDup (map e_word (arrange l))).
Proof.
  unfold arrange.
  destruct (filters_apart e_word
              (fun e => e_can_study e && (e_box e <? 5))
              (fun e => e_can_study e && (e_box e =? 5)) l) as [Hl Hn].
  { intros x. destruct (e_can_study x); cbn; [| reflexivity].
    destruct (Z.ltb_spec (e_box x) 5); destruct (Z.eqb_spec (e_box x) 5);
      cbn; trivial; lia. }
  assert (Hp : Permutation
                 (list_sort e_box true
                    (filter (fun e => e_can_study e && (e_box e <? 5)) l)
                  ++ filter (fun e => e_can_study e && (e_box e =? 5)) l)
                 (filter (fun e => e_can_study e && (e_box e <? 5)) l
                  ++ filter (fun e => e_can_study e && (e_box e =? 5)) l)).
  { apply Permutation_app_tail, list_sort_perm. }
  split.
  - now rewrite (Permutation_length Hp).
  - intros H. apply Hn in H.
    eapply Permutation_NoDup; [| exact H].
    apply Permutation_map. now symmetry.
Qed.

(** X21. A study list that is returned never holds more entries than the
    class has words, so [remaining_words] never exceeds [total_words], and
    when the words of the class are distinct no word is offered twice. *)
Theorem study_list_no_repeat (clock : nat -> datetime)
    (uuid4 : nat -> string) (code : string) (w : World)
    (l : list StudyEntry) :
  fst (get_student_words_for_study clock uuid4 code w) = Ok l ->
  (List.length l <= List.length (class_words_of code w))%nat
  /\ (NoDup (class_words_of code w) -> NoDup (map e_word l)).
Proof.
  intros Hl. destruct (study_list_ok clock uuid4 code w l Hl) as (_ & _ & ->).
  destruct (arrange_apart (entries_of code w)) as [Hlen Hn].
  assert (Hw : map e_word (entries_of code w) = class_words_of code w).
  { unfold entries_of. rewrite map_map. cbn. apply map_id. }
  split.
  - rewrite <- Hw, length_map. exact Hlen.
  - intros H. apply Hn. now rewrite Hw.
Qed.

Lemma study_list_no_repeat_witness :
  NoDup (map e_word (arrange (entries_of "9011" mixed_world))).
Proof.
  apply (study_list_no_repeat sample_clock sample_uuid4 "9011" mixed_world
           (arrange (entries_of "9011" mixed_world)) eq_refl).
  cbn.
  repeat (constructor; [cbn; intuition discriminate |]). constructor.
Defined.

Section Frames.
Variable clock : nat -> datetime.
Variable uuid4 : nat -> string.

Lemma submit_answer_frame (session : StudySession) (w : World) :
  students (snd (submit_answer clock session w)) = students w
  /\ words (snd (submit_answer clock session w)) = words w.
Proof.
  destruct (find (fun x => String.eqb (w_id x) (ss_word_id session))
                 (words w)) as [wd |] eqn:Hk.
  - now rewrite (submit_answer_known clock session w wd Hk).
  - now rewrite (submit_answer_unknown clock session w Hk).
Qed.

Lemma get_student_words_frame (code : string) (w : World) :
  snd (get_student_words code w) = w.
Proof.
  unfold get_student_words, bind, students_find_one, words_find_class.
  destruct (find _ (students w)); [| reflexivity].
  now rewrite word_status_loop.
Qed.

Lemma serve_study_frame (r : Request) (w : World) :
  is_upload r = false ->
  students (serve clock uuid4 r w) = students w
  /\ words (serve clock uuid4 r w) = words w.
Proof.
  destruct r as [c | c | session | c | c | f rows | f rows];
    cbn [is_upload serve]; intros H; try discriminate.
  - unfold student_login, bind, students_find_one.
    now destruct (find _ (students w)).
  - rewrite get_next_word_world.
    now destruct (study_list_frame clock uuid4 c w) as (Hs & Hw & _).
  - apply submit_answer_frame.
  - rewrite get_student_stats_world.
    destruct (find _ (students w)); [| now split].
    now destruct (study_list_frame clock uuid4 c (after_reading w))
      as (Hs & Hw & _).
  - now rewrite get_student_words_frame.
Qed.

Lemma upload_words_frame (filename : string) (rows : list (list string))
    (w : World) :
  students (snd (upload_words clock uuid4 filename rows w)) = students w
  /\ exists new,
       words (snd (upload_words clock uuid4 filename rows w))
       = words w ++ new.
Proof.
  unfold upload_words.
  destruct (PyStr.endswith filename ".csv"); cbn [negb].
  - unfold bind, ret.
    destruct (upload_words_loop clock uuid4 rows 0%nat w)
      as (Hs & new & Hw & _).
    destruct (for_each rows (upload_words_row clock uuid4) 0%nat w)
      as [added w']. cbn [fst snd] in *.
    split; [exact Hs | now exists new].
  - split; [reflexivity |]. exists []. cbn. now rewrite app_nil_r.
Qed.

(** A request other than an import of students keeps the students, keeps
    the words and may append some. *)
Lemma serve_catalog (r : Request) (w : World) :
  is_student_import r = false ->
  students (serve clock uuid4 r w) = students w
  /\ exists new, words (serve clock uuid4 r w) = words w ++ new.
Proof.
  intros H.
  destruct (is_upload r) eqn:Hu.
  - destruct r as [c | c | session | c | c | f rows | f rows];
      try discriminate.
    cbn [serve]. apply upload_words_frame.
  - destruct (serve_study_frame r w Hu) as [Hs Hw].
    split; [exact Hs |]. exists []. now rewrite app_nil_r.
Qed.

Lemma serve_keeps_date (r : Request) (w : World) (code id : string) :
  (exists p d, progress_of code id w = Some p
               /\ p_last_studied_date p = Some d) ->
  exists p d, progress_of code id (serve clock uuid4 r w) = Some p
              /\ p_last_studied_date p = Some d.
Proof.
  unfold progress_of.
  apply (serve_preserves clock uuid4
           (fun l => exists p d, find (match_progress code id) l = Some p
                                 /\ p_last_studied_date p = Some d)).
  - intros l c i u0 c0 u1 _ (p & d & Hp & Hd).
    exists p, d. split; [now apply find_app_some | exact Hd].
  - intros l c i ok s u (p & d & Hp & Hd).
    destruct (string_dec c code) as [Hc | Hc];
      [destruct (string_dec i id) as [Hi | Hi] |].
    + subst c i.
      match goal with
      | |- context [upsert code id ?b s u l] =>
          destruct (find_upsert_same code id b s u l)
            as (q & Hq & _ & Hqd & _)
      end.
      now exists q, s.
    + exists p, d. rewrite find_upsert_other by congruence. now split.
    + exists p, d. rewrite find_upsert_other by congruence. now split.
Qed.

Lemma serve_all_blocked (rs : list Request) (code : string) (word : Word) :
  Forall (fun r => is_student_import r = false) rs ->
  forall w,
    In word (class_words_of code w) ->
    (exists p d, progress_of code (w_id word) w = Some p
                 /\ p_last_studied_date p = Some d) ->
    In word (class_words_of code (serve_all clock uuid4 rs w))
    /\ has_date code (serve_all clock uuid4 rs w) word = true.
Proof.
  unfold serve_all.
  induction 1 as [| r rs Hr _ IH]; intros w Hin Hd.
  - split; [exact Hin | now apply has_date_spec].
  - cbn [fold_left]. apply IH.
    + destruct (serve_catalog r w Hr) as (Hs & new & Hw).
      unfold class_words_of in *. rewrite Hs, Hw.
      destruct (find _ (students w)); [| destruct Hin].
      rewrite filter_app, in_app_iff. now left.
    + now apply serve_keeps_date.
Qed.
End Frames.

(** X7. Once a word of the student's class has a dated progress document,
    the study list, [get_next_word] and [get_student_stats] of that student
    raise [TypeError] after every sequence of requests that holds no import
    of students: nothing that the other requests do removes the date or the
    word. *)
Theorem dated_word_blocks_for_good (clock : nat -> datetime)
    (uuid4 : nat -> string) (code : string) (w : World) (word : Word)
    (p : Progress) (d : datetime) (rs : list Request) :
  In word (class_words_of code w) ->
  progress_of code (w_id word) w = Some p ->
  p_last_studied_date p = Some d ->
  Forall (fun r => is_student_import r = false) rs ->
  let w' := serve_all clock uuid4 rs w in
  fst (get_student_words_for_study clock uuid4 code w') = TypeError
  /\ fst (get_next_word clock uuid4 code w') = TypeError
  /\ fst (get_student_stats clock uuid4 code w') = TypeError.
Proof.
  intros Hin Hp Hd Hrs w'.
  destruct (serve_all_blocked clock uuid4 rs code word Hrs w Hin)
    as [Hin' Hd']; [now exists p, d |].
  apply blocked_requests. now exists word.
Qed.

Lemma dated_word_blocks_for_good_witness :
  fst (get_next_word sample_clock sample_uuid4 "9011"
         (serve_all sample_clock sample_uuid4
            [GetNextWord "9011"; SubmitAnswer (answer_to hello "merhaba");
             UploadWords "words.csv" [["5A"; "book"; "kitap"]];
             GetStudentStats "9011"]
            (studied_world 2))) = TypeError.
Proof.
  destruct (dated_word_blocks_for_good sample_clock sample_uuid4 "9011"
              (studied_world 2) hello (studied 2) (jan 1 23 59)
              [GetNextWord "9011"; SubmitAnswer (answer_to hello "merhaba");
               UploadWords "words.csv" [["5A"; "book"; "kitap"]];
               GetStudentStats "9011"]
              (or_introl eq_refl) eq_refl eq_refl)
    as (_ & H & _).
  - repeat constructor.
  - exact H.
Defined.

(** X22. The requests of the study side, login, next word, answer,
    statistics and word report, never change the students or the catalog
    of words, in whatever number and order they are served. *)
Theorem study_requests_keep_catalog (clock : nat -> datetime)
    (uuid4 : nat -> string) (rs : list Request) (w : World) :
  Forall (fun r => is_upload r = false) rs ->
  students (serve_all clock uuid4 rs w) = students w
  /\ words (serve_all clock uuid4 rs w) = words w.
Proof.
  intros H. revert w. unfold serve_all.
  induction H as [| r rs Hr H IH]; intros w; [now split |].
  cbn [fold_left]. destruct (IH (serve clock uuid4 r w)) as [Hs Hw].
  destruct (serve_study_frame clock uuid4 r w Hr) as [Hs' Hw'].
  split; congruence.
Qed.

Lemma study_requests_keep_catalog_witness :
  words (serve_all sample_clock sample_uuid4
           [GetNextWord "9011"; SubmitAnswer (answer_to hello "merhaba");
            GetStudentStats "9011"; GetStudentWords "9011";
            StudentLogin "9011"] sample_world) = [hello].
Proof.
  apply (study_requests_keep_catalog sample_clock sample_uuid4 _ sample_world).
  repeat constructor.
Defined.

(** X23. The word that [get_next_word] hands out is known to
    [submit_answer]; and once the answer to it is recorded, right or wrong,
    the next call of [get_next_word] for the student raises [TypeError],
    whatever the clock reads: the first answer ends the study of that
    student. *)
Theorem first_answer_ends_study (clock : nat -> datetime)
    (uuid4 : nat -> string) (code answer : string) (flag : bool) (w : World)
    (id en : string) (b : Z) (n : nat) :
  fst (get_next_word clock uuid4 code w) = Ok (Next id en b n) ->
  let w1 := snd (get_next_word clock uuid4 code w) in
  let session := mkStudySession code id answer flag in
  let w2 := snd (submit_answer clock session w1) in
  (exists resp, fst (submit_answer clock session w1) = Ok resp)
  /\ fst (get_next_word clock uuid4 code w2) = TypeError.
Proof.
  intros Hnext w1 session w2.
  assert (Hword : exists word, In word (class_words_of code w1)
                               /\ w_id word = id).
  { subst w1. rewrite get_next_word_world.
    destruct (study_list_frame clock uuid4 code w) as (Hs & Hw & _).
    unfold get_next_word, try_bind in Hnext.
    pose proof (study_list_ok clock uuid4 code w) as Hok.
    destruct (get_student_words_for_study clock uuid4 code w) as [r w'].
    cbn [fst snd] in *.
    destruct r as [[| e0 rest] | c d |]; cbn in Hnext; try discriminate.
    injection Hnext as Hid _ _ _.
    destruct (Hok _ eq_refl) as (_ & _ & Ha).
    assert (Hin : In e0 (arrange (entries_of code w)))
      by (rewrite <- Ha; now left).
    apply in_arrange in Hin as [Hin _]. unfold entries_of in Hin.
    apply in_map_iff in Hin as (x & <- & Hx). exists x.
    split; [| exact Hid].
    unfold class_words_of in *. now rewrite Hs, Hw. }
  destruct Hword as (word & Hin & Hid).
  destruct (submit_answer_blocks clock session w1 word Hin Hid) as [Hr Hb].
  split; [exact Hr |].
  now apply (blocked_requests clock uuid4 code w2).
Qed.

Lemma first_answer_ends_study_witness :
  (exists resp,
     fst (submit_answer sample_clock
            (mkStudySession "9011" "w0" "merhaba" false)
            (snd (get_next_word sample_clock sample_uuid4 "9011"
                    sample_world))) = Ok resp)
  /\ fst (get_next_word sample_clock sample_uuid4 "9011"
            (snd (submit_answer sample_clock
                    (mkStudySession "9011" "w0" "merhaba" false)
                    (snd (get_next_word sample_clock sample_uuid4 "9011"
                            sample_world))))) = TypeError.
Proof.
  exact (first_answer_ends_study sample_clock sample_uuid4 "9011" "merhaba"
           false sample_world "w0" "hello" 1 1 eq_refl).
Defined.
